(** * Push-notification server: registration, query and request handlers

    A shallow embedding of
    [protocol/push_notification_server/push_notification_server.go]
    together with the properties of its three protocol handlers.

    Conventions of the embedding:
    - a Go pointer or a nil-able slice that the code compares with [nil] is
      an [option] ([None] is [nil]);
    - a Go [(value, error)] result is a [result];
    - the persistence interface is a type class over the type of the store;
      reads take the store, writes return the new store;
    - the logger and the push gateway are effects: a handler returns the
      log entries it wrote and the gateway calls it made, in order. *)

From Stdlib Require Import NArith Ascii String List.
From Stdlib Require Import Strings.Byte.
From stdpp Require Import base option list strings countable gmap.
Import ListNotations.

Local Open Scope string_scope.
Local Open Scope N_scope.
Local Open Scope list_scope.

(** ** Bytes *)

Definition bytes : Type := list byte.

#[global] Instance byte_eq_dec : EqDecision byte := Byte.byte_eq_dec.

#[global] Instance byte_countable : Countable byte :=
  inj_countable Byte.to_N Byte.of_N Byte.of_to_N.

(** ** Errors

    The package's sentinel errors (declared with [errors.New] next to the
    server) are compared by identity in the source; each is a constructor.
    [errors_New msg] is any other error value: the one [validateUUID]
    builds, and whatever a collaborator returns. *)

Inductive error : Type :=
| ErrEmptyPushNotificationRegistrationPayload
| ErrEmptyPushNotificationRegistrationPublicKey
| ErrCouldNotUnmarshalPushNotificationRegistration
| ErrInvalidPushNotificationRegistrationVersion
| ErrMalformedPushNotificationRegistrationInstallationID
| ErrMalformedPushNotificationRegistrationAccessToken
| ErrMalformedPushNotificationRegistrationDeviceToken
| ErrUnknownPushNotificationRegistrationTokenType
| errors_New (msg : string).

#[global] Instance error_eq_dec : EqDecision error.
Proof. solve_decision. Defined.

(** Go's [(T, error)]: either a value or a non-nil error. *)
Inductive result (A : Type) : Type :=
| Ok (a : A)
| Err (e : error).
Arguments Ok {A} a.
Arguments Err {A} e.

#[global] Instance result_ret : MRet result := @Ok.

#[global] Instance result_bind : MBind result := λ A B k r,
  match r with
  | Ok a => k a
  | Err e => Err e
  end.

(** The [error] half of a result: [None] is a nil error. *)
Definition err_of {A : Type} (r : result A) : option error :=
  match r with
  | Ok _ => None
  | Err e => Some e
  end.

(** ** Protocol messages *)

(** Modelled from the spec: the generated protobuf declarations of the
    messages are not among the sources.  Each record has the fields the
    server reads or writes, under their Go names, as section 6 of the
    specification lists them; an enumeration's first constructor is its
    zero value, the one a freshly allocated message holds. *)
Module protobuf.

Inductive PushNotificationRegistration_TokenType : Type :=
| PushNotificationRegistration_UNKNOWN_TOKEN_TYPE
| PushNotificationRegistration_APN_TOKEN
| PushNotificationRegistration_FIREBASE_TOKEN.

Record PushNotificationRegistration : Type := {
  TokenType : PushNotificationRegistration_TokenType;
  Token : string;
  InstallationId : string;
  AccessToken : string;
  Version : N;
  AllowedUserList : list bytes;
  Unregister : bool;
}.

Record PushNotificationQuery : Type := {
  PublicKeys : list bytes;
}.

Record PushNotificationQueryInfo : Type := {
  qi_AccessToken : string;
  qi_InstallationId : string;
  qi_PublicKey : bytes;
  qi_AllowedUserList : list bytes;
}.

Record PushNotificationQueryResponse : Type := {
  Info : list PushNotificationQueryInfo;
  qr_Success : bool;
}.

Record PushNotification : Type := {
  pn_AccessToken : string;
  pn_PublicKey : bytes;
  pn_InstallationId : string;
}.

Record PushNotificationRequest : Type := {
  Requests : list PushNotification;
  MessageId : bytes;
}.

Inductive PushNotificationReport_ErrorType : Type :=
| PushNotificationReport_UNKNOWN_ERROR_TYPE
| PushNotificationReport_WRONG_TOKEN
| PushNotificationReport_INTERNAL_ERROR
| PushNotificationReport_NOT_REGISTERED.

Record PushNotificationReport : Type := {
  rp_Success : bool;
  rp_Error : PushNotificationReport_ErrorType;
  rp_PublicKey : bytes;
  rp_InstallationId : string;
}.

Record PushNotificationResponse : Type := {
  rs_MessageId : bytes;
  Reports : list PushNotificationReport;
}.

Inductive PushNotificationRegistrationResponse_ErrorType : Type :=
| PushNotificationRegistrationResponse_UNKNOWN_ERROR_TYPE
| PushNotificationRegistrationResponse_MALFORMED_MESSAGE
| PushNotificationRegistrationResponse_VERSION_MISMATCH
| PushNotificationRegistrationResponse_UNSUPPORTED_TOKEN_TYPE
| PushNotificationRegistrationResponse_INTERNAL_ERROR.

Record PushNotificationRegistrationResponse : Type := {
  rr_Success : bool;
  rr_Error : PushNotificationRegistrationResponse_ErrorType;
  RequestId : bytes;
}.

End protobuf.
Import protobuf.

#[global] Instance TokenType_eq_dec :
  EqDecision PushNotificationRegistration_TokenType.
Proof. solve_decision. Defined.

#[global] Instance PushNotificationRegistration_eq_dec :
  EqDecision PushNotificationRegistration.
Proof. solve_decision. Defined.

#[global] Instance PushNotification_eq_dec : EqDecision PushNotification.
Proof. solve_decision. Defined.

(** [&protobuf.PushNotificationRegistration{}]: every field at its zero
    value. *)
Definition PushNotificationRegistration_zero : PushNotificationRegistration :=
  {| TokenType := PushNotificationRegistration_UNKNOWN_TOKEN_TYPE;
     Token := "";
     InstallationId := "";
     AccessToken := "";
     Version := 0;
     AllowedUserList := [];
     Unregister := false |}.

(** ** The persistence interface

    The three methods of [Persistence] the server calls.  [S] is the state
    of the store. *)

Record PushNotificationIDAndRegistration : Type := {
  ID : bytes;
  Registration : PushNotificationRegistration;
}.

Class Persistence (S : Type) : Type := {
  GetPushNotificationRegistrationByPublicKeyAndInstallationID :
    S → bytes → string → result (option PushNotificationRegistration);
  GetPushNotificationRegistrationByPublicKeys :
    S → list bytes → result (list PushNotificationIDAndRegistration);
  SavePushNotificationRegistration :
    S → bytes → PushNotificationRegistration → result S;
}.

(** Modelled from the spec: the store is "keyed by hashed-identity +
    installationId supporting get-by-key" with "get/set semantics": what
    was saved under a key is what a later lookup of the key returns. *)
Class PersistenceGetSet (S : Type) `{!Persistence S} : Prop := {
  get_after_save : ∀ (s s' : S) (k : bytes) (r : PushNotificationRegistration),
    SavePushNotificationRegistration s k r = Ok s' →
    GetPushNotificationRegistrationByPublicKeyAndInstallationID
      s' k (InstallationId r) = Ok (Some r);
}.

(** ** The gateway batch and the log *)

Record RequestAndRegistration : Type := {
  Request : PushNotification;
  Registration' : PushNotificationRegistration;
}.

Inductive LogLevel : Type := DebugLevel | WarnLevel | ErrorLevel.

Record LogEntry : Type := {
  level : LogLevel;
  msg : string;
  zap_Error : option error;
}.

Definition encryptedPayloadKeyLength : nat := 16.

(** ** Collaborators outside the package

    ECIES key agreement ([eth-node/crypto/ecies]), the envelope cipher and
    the hashes of [protocol/common], protobuf decoding, the UUID parser and
    the conversion of a batch to a gateway request.  A pointer argument is
    an [option]. *)

Class Collaborators (PrivateKey PublicKey UUID GoRushRequest : Type) : Type := {
  ecies_GenerateShared :
    option PrivateKey → option PublicKey → nat → nat → result bytes;
  common_Decrypt : bytes → bytes → result bytes;
  common_HashPublicKey : option PublicKey → bytes;
  common_Shake256 : bytes → bytes;
  proto_Unmarshal : bytes → result PushNotificationRegistration;
  uuid_Parse : string → result UUID;
  PushNotificationRegistrationToGoRushRequest :
    list RequestAndRegistration → GoRushRequest;
}.

(** ** The server *)

Section Server.

Context {PrivateKey PublicKey UUID GoRushRequest : Type}.
Context `{!Collaborators PrivateKey PublicKey UUID GoRushRequest}.
Context {S : Type} `{!Persistence S}.

Record Config : Type := {
  Identity : option PrivateKey;
  GorushURL : string;
}.

Record Server : Type := {
  persistence : S;
  config : Config;
}.

(** [sendGoRushNotification request url]: a call to the gateway. *)
Record GatewayCall : Type := {
  goRushRequest : GoRushRequest;
  url : string;
}.

Definition generateSharedKey (p : Server) (publicKey : option PublicKey)
  : result bytes :=
  ecies_GenerateShared (Identity (config p)) publicKey
    encryptedPayloadKeyLength encryptedPayloadKeyLength.

Definition validateUUID (u : string) : option error :=
  if decide (String.length u = 0%nat) then Some (errors_New "empty uuid")
  else err_of (uuid_Parse u).

Definition decryptRegistration (p : Server) (publicKey : option PublicKey)
    (payload : bytes) : result bytes :=
  sharedKey ← generateSharedKey p publicKey;
  common_Decrypt payload sharedKey.

(** [ValidateRegistration] validates a new message against the last one
    received for a given installation id and public key, and returns the
    decrypted message. *)
Definition ValidateRegistration (p : Server) (publicKey : option PublicKey)
    (payload : option bytes) : result PushNotificationRegistration :=
  match payload with
  | None => Err ErrEmptyPushNotificationRegistrationPayload
  | Some payload' =>
  if publicKey is None then
    Err ErrEmptyPushNotificationRegistrationPublicKey
  else
  decryptedPayload ← decryptRegistration p publicKey payload';
  match proto_Unmarshal decryptedPayload with
  | Err _ => Err ErrCouldNotUnmarshalPushNotificationRegistration
  | Ok registration =>
  if Version registration <? 1 then
    Err ErrInvalidPushNotificationRegistrationVersion
  else if validateUUID (InstallationId registration) is Some _ then
    Err ErrMalformedPushNotificationRegistrationInstallationID
  else
  previousRegistration ←
    GetPushNotificationRegistrationByPublicKeyAndInstallationID
      (persistence p) (common_HashPublicKey publicKey)
      (InstallationId registration);
  if (if previousRegistration is Some previous
      then Version registration <=? Version previous else false) then
    Err ErrInvalidPushNotificationRegistrationVersion
  (* Unregistering message *)
  else if Unregister registration then
    Ok registration
  else if validateUUID (AccessToken registration) is Some _ then
    Err ErrMalformedPushNotificationRegistrationAccessToken
  else if decide (String.length (Token registration) = 0%nat) then
    Err ErrMalformedPushNotificationRegistrationDeviceToken
  else if decide (TokenType registration
                  = PushNotificationRegistration_UNKNOWN_TOKEN_TYPE) then
    Err ErrUnknownPushNotificationRegistrationTokenType
  else
    Ok registration
  end
  end.

(** *** Query *)

(** One turn of the loop of [HandlePushNotificationQuery]. *)
Definition queryInfo (idAndResponse : PushNotificationIDAndRegistration)
  : PushNotificationQueryInfo :=
  let registration := Registration idAndResponse in
  let info := {| qi_PublicKey := ID idAndResponse;
                 qi_InstallationId := InstallationId registration;
                 qi_AccessToken := "";
                 qi_AllowedUserList := [] |} in
  if decide (0 < length (AllowedUserList registration))%nat then
    {| qi_PublicKey := qi_PublicKey info;
       qi_InstallationId := qi_InstallationId info;
       qi_AccessToken := qi_AccessToken info;
       qi_AllowedUserList := AllowedUserList registration |}
  else
    {| qi_PublicKey := qi_PublicKey info;
       qi_InstallationId := qi_InstallationId info;
       qi_AccessToken := AccessToken registration;
       qi_AllowedUserList := qi_AllowedUserList info |}.

Definition HandlePushNotificationQuery (p : Server)
    (query : option PushNotificationQuery) : PushNotificationQueryResponse :=
  let response := {| Info := []; qr_Success := false |} in
  match query with
  | None => response
  | Some query' =>
  if decide (length (PublicKeys query') = 0%nat) then response
  else
  match GetPushNotificationRegistrationByPublicKeys
          (persistence p) (PublicKeys query') with
  | Err _ => response
  | Ok registrations =>
    let response :=
      fold_left
        (λ response idAndResponse,
           {| Info := Info response ++ [queryInfo idAndResponse];
              qr_Success := qr_Success response |})
        registrations response in
    {| Info := Info response; qr_Success := true |}
  end
  end.

(** *** Notification request *)

(** The body of the loop of [HandlePushNotificationRequest] up to its
    last statement: the report for one entry of the request and, when the
    entry is accepted, the element appended to the successful requests.
    A report starts with [Error] and [Success] at their zero values. *)
Definition requestEntry (p : Server) (pn : PushNotification)
  : PushNotificationReport * option RequestAndRegistration :=
  let report e ok := {| rp_PublicKey := pn_PublicKey pn;
                        rp_InstallationId := pn_InstallationId pn;
                        rp_Error := e;
                        rp_Success := ok |} in
  match GetPushNotificationRegistrationByPublicKeyAndInstallationID
          (persistence p) (pn_PublicKey pn) (pn_InstallationId pn) with
  | Err _ =>
    (report PushNotificationReport_UNKNOWN_ERROR_TYPE false, None)
  | Ok None =>
    (report PushNotificationReport_NOT_REGISTERED false, None)
  | Ok (Some registration) =>
    if decide (AccessToken registration ≠ pn_AccessToken pn) then
      (report PushNotificationReport_WRONG_TOKEN false, None)
    else
      (* For now we just assume that the notification will be successful *)
      (report PushNotificationReport_UNKNOWN_ERROR_TYPE true,
       Some {| Request := pn; Registration' := registration |})
  end.

(** One turn of the loop: [response.Reports] and
    [requestAndRegistrations] grow by [append]. *)
Definition requestStep (p : Server)
    (acc : list PushNotificationReport * list RequestAndRegistration)
    (pn : PushNotification)
  : list PushNotificationReport * list RequestAndRegistration :=
  let '(reports, requestAndRegistrations) := acc in
  let '(report, accepted) := requestEntry p pn in
  (reports ++ [report],
   if accepted is Some requestAndRegistration
   then requestAndRegistrations ++ [requestAndRegistration]
   else requestAndRegistrations).

(** The successful requests the loop has collected when it ends: the
    batch that is converted and handed to the gateway. *)
Definition requestBatch (p : Server) (request : PushNotificationRequest)
  : list RequestAndRegistration :=
  (fold_left (requestStep p) (Requests request) ([], [])).2.

(** The result is the response ([None]: no response is sent) and the
    calls made to the gateway. *)
Definition HandlePushNotificationRequest (p : Server)
    (request : option PushNotificationRequest)
  : option PushNotificationResponse * list GatewayCall :=
  match request with
  | None => (None, [])
  | Some request' =>
  (* We don't even send a response in this case *)
  if decide (length (MessageId request') = 0%nat) then (None, [])
  else
  let '(reports, requestAndRegistrations) :=
    fold_left (requestStep p) (Requests request') ([], []) in
  let response := {| rs_MessageId := MessageId request';
                     Reports := reports |} in
  if decide (length requestAndRegistrations = 0%nat) then (Some response, [])
  else
    let goRushRequest :=
      PushNotificationRegistrationToGoRushRequest requestAndRegistrations in
    (Some response,
     [{| goRushRequest := goRushRequest; url := GorushURL (config p) |}])
  end.

(** *** Registration *)

Definition logEntry (l : LogLevel) (m : string) (e : option error)
  : LogEntry := {| level := l; msg := m; zap_Error := e |}.

(** The result is the server after the call, the entries written to the
    log and the response. *)
Definition HandlePushNotificationRegistration (s : Server)
    (publicKey : option PublicKey) (payload : option bytes)
  : Server * list LogEntry * PushNotificationRegistrationResponse :=
  let log0 :=
    [logEntry DebugLevel "handling push notification registration" None] in
  let response e ok :=
    {| RequestId := common_Shake256 (default [] payload);
       rr_Error := e;
       rr_Success := ok |} in
  let save registration failure :=
    match SavePushNotificationRegistration (persistence s)
            (common_HashPublicKey publicKey) registration with
    | Err err =>
      (s, log0 ++ [logEntry ErrorLevel failure (Some err)],
       response PushNotificationRegistrationResponse_INTERNAL_ERROR false)
    | Ok store =>
      ({| persistence := store; config := config s |},
       log0 ++ [logEntry DebugLevel
                  "handled push notification registration successfully"
                  None],
       response PushNotificationRegistrationResponse_UNKNOWN_ERROR_TYPE true)
    end in
  match ValidateRegistration s publicKey payload with
  | Err err =>
    (s, log0 ++ [logEntry WarnLevel "registration did not validate"
                   (Some err)],
     response
       (if decide (err = ErrInvalidPushNotificationRegistrationVersion)
        then PushNotificationRegistrationResponse_VERSION_MISMATCH
        else PushNotificationRegistrationResponse_MALFORMED_MESSAGE)
       false)
  | Ok registration =>
    if Unregister registration then
      (* We save an empty registration, only keeping version and
         installation-id *)
      let emptyRegistration :=
        {| Version := Version registration;
           InstallationId := InstallationId registration;
           TokenType := TokenType PushNotificationRegistration_zero;
           Token := Token PushNotificationRegistration_zero;
           AccessToken := AccessToken PushNotificationRegistration_zero;
           AllowedUserList :=
             AllowedUserList PushNotificationRegistration_zero;
           Unregister := Unregister PushNotificationRegistration_zero |} in
      save emptyRegistration "failed to unregister "
    else
      save registration "failed to save registration"
  end.

End Server.

Arguments Config : clear implicits.
Arguments Server : clear implicits.
Arguments GatewayCall : clear implicits.

(** ** Stores

    Two implementations of the persistence interface. *)

(** Modelled from the spec: the persistence backend is not among the
    sources; this one is the store "keyed by hashed-identity +
    installationId supporting get-by-key and get-by-key-set" of section 6,
    held in memory. *)
Definition MemoryStore : Type := gmap (bytes * string) PushNotificationRegistration.

#[global] Instance MemoryStore_persistence : Persistence MemoryStore := {|
  GetPushNotificationRegistrationByPublicKeyAndInstallationID s k i :=
    Ok ((s : gmap _ _) !! (k, i));
  GetPushNotificationRegistrationByPublicKeys s ks :=
    Ok (omap (λ '(k, _, r),
                if decide (k ∈ ks)
                then Some {| ID := k; Registration := r |} else None)
             (map_to_list (s : gmap _ _)));
  SavePushNotificationRegistration s k r :=
    Ok (<[(k, InstallationId r) := r]> (s : gmap _ _));
|}.

#[global] Instance MemoryStore_get_set : PersistenceGetSet MemoryStore.
Proof.
  split. intros s s' k r [= <-]. cbn. by rewrite lookup_insert_eq.
Qed.

(** A store whose every operation fails, as a backend that lost its
    database does. *)
Inductive BrokenStore : Type := brokenStore.

#[global] Instance BrokenStore_persistence : Persistence BrokenStore := {|
  GetPushNotificationRegistrationByPublicKeyAndInstallationID _ _ _ :=
    Err (errors_New "sql: database is closed");
  GetPushNotificationRegistrationByPublicKeys _ _ :=
    Err (errors_New "sql: database is closed");
  SavePushNotificationRegistration _ _ _ :=
    Err (errors_New "sql: database is closed");
|}.

(** ** A concrete deployment

    Collaborators simple enough to run the handlers on examples: keys are
    byte strings hashed by the identity, the cipher leaves the payload as
    it is and rejects an empty one, the decoder knows a fixed table of
    messages, and the UUID parser accepts the canonical 36-character form.
    The handlers above are used unchanged. *)

Module Fixture.

Definition is_hex (c : ascii) : bool :=
  let n := nat_of_ascii c in
  ((48 <=? n) && (n <=? 57) || (97 <=? n) && (n <=? 102)
   || (65 <=? n) && (n <=? 70))%nat.

Fixpoint canonical_from (i : nat) (s : string) : bool :=
  match s with
  | EmptyString => Nat.eqb i 36
  | String c s' =>
    (if bool_decide (i ∈ [8; 13; 18; 23]%nat)
     then bool_decide (c = "-"%char) else is_hex c)
    && canonical_from (Datatypes.S i) s'
  end.

Definition parse (u : string) : result string :=
  if canonical_from 0 u then Ok u else Err (errors_New "invalid UUID format").

Definition installation1 : string := "0d6b8e2a-1f53-4c7e-9a60-5b2f7c3d1e94".
Definition token1 : string := "7a1c9e42-3b5d-4f68-8e07-c2d4a6b8f013".

(** A well-formed registration, version 2. *)
Definition register2 : PushNotificationRegistration :=
  {| TokenType := PushNotificationRegistration_APN_TOKEN;
     Token := "tok-1";
     InstallationId := installation1;
     AccessToken := token1;
     Version := 2;
     AllowedUserList := [];
     Unregister := false |}.

(** The same installation, version 1. *)
Definition register1 : PushNotificationRegistration :=
  {| TokenType := PushNotificationRegistration_APN_TOKEN;
     Token := "tok-1";
     InstallationId := installation1;
     AccessToken := token1;
     Version := 1;
     AllowedUserList := [];
     Unregister := false |}.

(** An unregistration, version 3, whose other fields are rubbish. *)
Definition unregister3 : PushNotificationRegistration :=
  {| TokenType := PushNotificationRegistration_UNKNOWN_TOKEN_TYPE;
     Token := "";
     InstallationId := installation1;
     AccessToken := "not-a-uuid";
     Version := 3;
     AllowedUserList := [];
     Unregister := true |}.

(** Version 0 and no installation id. *)
Definition version0 : PushNotificationRegistration :=
  {| TokenType := PushNotificationRegistration_APN_TOKEN;
     Token := "tok-1";
     InstallationId := "";
     AccessToken := token1;
     Version := 0;
     AllowedUserList := [];
     Unregister := false |}.

(** Version 1 and an installation id that is no UUID. *)
Definition badInstallation : PushNotificationRegistration :=
  {| TokenType := PushNotificationRegistration_APN_TOKEN;
     Token := "tok-1";
     InstallationId := "my-phone";
     AccessToken := token1;
     Version := 1;
     AllowedUserList := [];
     Unregister := false |}.

(** A registration that discloses an allow-list. *)
Definition allowListed : PushNotificationRegistration :=
  {| TokenType := PushNotificationRegistration_FIREBASE_TOKEN;
     Token := "tok-2";
     InstallationId := installation1;
     AccessToken := token1;
     Version := 1;
     AllowedUserList := [[x0a; x0b]; [x0c]];
     Unregister := false |}.

Definition messages : list (bytes * PushNotificationRegistration) :=
  [([x01], register1); ([x02], register2); ([x03], unregister3);
   ([x04], version0); ([x05], badInstallation); ([x06], allowListed)].

Definition decode (b : bytes) : result PushNotificationRegistration :=
  match list_find (λ m, m.1 = b) messages with
  | Some (_, (_, r)) => Ok r
  | None => Err (errors_New "proto: cannot parse invalid wire-format data")
  end.

#[global] Instance collaborators
  : Collaborators bytes bytes string (list (string * string)) := {|
  ecies_GenerateShared sk pk n _ :=
    match sk, pk with
    | Some a, Some b => Ok (take n (a ++ b))
    | _, _ => Err (errors_New "ecies: invalid key")
    end;
  common_Decrypt payload _ :=
    if payload is [] then Err (errors_New "payload is too short")
    else Ok payload;
  common_HashPublicKey pk := default [] pk;
  common_Shake256 b := b;
  proto_Unmarshal := decode;
  uuid_Parse := parse;
  PushNotificationRegistrationToGoRushRequest batch :=
    (λ rr, (Token (Registration' rr), pn_InstallationId (Request rr)))
      <$> batch;
|}.

Definition alice : bytes := [xa1; x1c; xe0].

Definition configuration : Config bytes :=
  {| Identity := Some [x5e; x12]; GorushURL := "http://localhost:8088" |}.

Definition server (store : MemoryStore) : Server bytes MemoryStore :=
  {| persistence := store; config := configuration |}.

Definition broken : Server bytes BrokenStore :=
  {| persistence := brokenStore; config := configuration |}.

(** A store that holds [r] for Alice. *)
Definition holding (r : PushNotificationRegistration) : MemoryStore :=
  {[ (alice, InstallationId r) := r ]}.

End Fixture.

(** ** Sending the responses

    The handlers whose name ends in 2 run a handler, serialise its
    response and hand it to the message processor, addressed to the peer.
    [proto.Marshal] and [SendPrivate] are collaborators; [M] is the state
    of the message processor.  A wrapper returns, beside what the handler
    returns, the state of the processor afterwards, the calls of
    [SendPrivate] it made and the error it returns ([None] is nil). *)

Inductive ApplicationMetadataMessage_Type : Type :=
| ApplicationMetadataMessage_PUSH_NOTIFICATION_REGISTRATION_RESPONSE
| ApplicationMetadataMessage_PUSH_NOTIFICATION_QUERY_RESPONSE
| ApplicationMetadataMessage_PUSH_NOTIFICATION_RESPONSE.

(** [common.RawMessage], with the two fields the server sets. *)
Record RawMessage : Type := {
  Payload : bytes;
  MessageType : ApplicationMetadataMessage_Type;
}.

(** The messages the server passes to [proto.Marshal]. *)
Inductive proto_Message : Type :=
| RegistrationResponseMessage (m : PushNotificationRegistrationResponse)
| QueryResponseMessage (m : PushNotificationQueryResponse)
| NotificationResponseMessage (m : PushNotificationResponse).

Class Transport (PublicKey M : Type) : Type := {
  proto_Marshal : proto_Message → result bytes;
  SendPrivate : M → option PublicKey → RawMessage → M * result bytes;
}.

Section Wrappers.

Context {PrivateKey PublicKey UUID GoRushRequest : Type}.
Context `{!Collaborators PrivateKey PublicKey UUID GoRushRequest}.
Context {S : Type} `{!Persistence S}.
Context {M : Type} `{!Transport PublicKey M}.

Record SendPrivateCall : Type := {
  recipient : option PublicKey;
  rawMessage : RawMessage;
}.

Record Sent : Type := {
  messageProcessor : M;
  calls : list SendPrivateCall;
  returned : option error;
}.

(** The statements the three wrappers share once the response is known
    not to be nil: serialise, wrap in a raw message, send. *)
Definition marshalAndSend (m : M) (publicKey : option PublicKey)
    (response : proto_Message) (messageType : ApplicationMetadataMessage_Type)
  : Sent :=
  match proto_Marshal response with
  | Err err => {| messageProcessor := m; calls := []; returned := Some err |}
  | Ok encodedMessage =>
    let rawMessage := {| Payload := encodedMessage;
                         MessageType := messageType |} in
    let '(m', r) := SendPrivate m publicKey rawMessage in
    {| messageProcessor := m';
       calls := [{| recipient := publicKey; rawMessage := rawMessage |}];
       returned := err_of r |}
  end.

(** [HandlePushNotificationRegistration] never returns nil, so the test
    [response == nil] of the source is always false here. *)
Definition HandlePushNotificationRegistration2 (p : Server PrivateKey S)
    (m : M) (publicKey : option PublicKey) (payload : option bytes)
  : Server PrivateKey S * list LogEntry * Sent :=
  let '(p', logs, response) :=
    HandlePushNotificationRegistration p publicKey payload in
  (p', logs,
   marshalAndSend m publicKey (RegistrationResponseMessage response)
     ApplicationMetadataMessage_PUSH_NOTIFICATION_REGISTRATION_RESPONSE).

(** The query is passed by value and its address handed on, so the inner
    handler never sees nil; its response is never nil either. *)
Definition HandlePushNotificationQuery2 (p : Server PrivateKey S) (m : M)
    (publicKey : option PublicKey) (query : PushNotificationQuery) : Sent :=
  let response := HandlePushNotificationQuery p (Some query) in
  marshalAndSend m publicKey (QueryResponseMessage response)
    ApplicationMetadataMessage_PUSH_NOTIFICATION_QUERY_RESPONSE.

Definition HandlePushNotificationRequest2 (p : Server PrivateKey S) (m : M)
    (publicKey : option PublicKey) (request : PushNotificationRequest)
  : list (GatewayCall GoRushRequest) * Sent :=
  let '(response, gateway) :=
    HandlePushNotificationRequest p (Some request) in
  match response with
  | None =>
    (gateway, {| messageProcessor := m; calls := []; returned := None |})
  | Some response' =>
    (gateway,
     marshalAndSend m publicKey (NotificationResponseMessage response')
       ApplicationMetadataMessage_PUSH_NOTIFICATION_RESPONSE)
  end.

End Wrappers.

Arguments SendPrivateCall : clear implicits.
Arguments Sent : clear implicits.

(** Three message processors for the concrete deployment: one that
    delivers and keeps what it sent, one whose network is down, and one
    whose serialiser rejects every message. *)
Module Wire.

Definition flag (b : bool) : byte := if b then x01 else x00.

Definition encode (message : proto_Message) : result bytes :=
  match message with
  | RegistrationResponseMessage r => Ok (flag (rr_Success r) :: RequestId r)
  | QueryResponseMessage r =>
    Ok (flag (qr_Success r)
        :: ((λ info, flag (bool_decide (qi_AccessToken info ≠ "")))
              <$> Info r))
  | NotificationResponseMessage r =>
    Ok (rs_MessageId r ++ ((λ report, flag (rp_Success report)) <$> Reports r))
  end.

Definition Outbox : Type := list (option bytes * RawMessage).

#[global] Instance outbox : Transport bytes Outbox := {|
  proto_Marshal := encode;
  SendPrivate m publicKey rawMessage :=
    (m ++ [(publicKey, rawMessage)], Ok (Payload rawMessage));
|}.

Inductive Offline : Type := offline.

#[global] Instance no_network : Transport bytes Offline := {|
  proto_Marshal := encode;
  SendPrivate m _ _ := (m, Err (errors_New "no peers available"));
|}.

Inductive Unencodable : Type := unencodable.

#[global] Instance no_codec : Transport bytes Unencodable := {|
  proto_Marshal _ := Err (errors_New "proto: invalid UTF-8 string");
  SendPrivate m _ rawMessage := (m, Ok (Payload rawMessage));
|}.

End Wire.

(** A store that answers lookups from the memory store it wraps and
    refuses every write. *)
Inductive ReadOnlyStore : Type := readOnly (content : MemoryStore).

#[global] Instance ReadOnlyStore_persistence : Persistence ReadOnlyStore := {|
  GetPushNotificationRegistrationByPublicKeyAndInstallationID s k i :=
    let 'readOnly content := s in
    GetPushNotificationRegistrationByPublicKeyAndInstallationID content k i;
  GetPushNotificationRegistrationByPublicKeys s ks :=
    let 'readOnly content := s in
    GetPushNotificationRegistrationByPublicKeys content ks;
  SavePushNotificationRegistration _ _ _ :=
    Err (errors_New "attempt to write a readonly database");
|}.

(** More inputs for the concrete deployment: requests for Alice's
    installation, and a second set of collaborators, for peers named by a
    string, whose decoder knows registrations with a bad token field. *)
Module Sample.

Definition knock (token : string) : PushNotification :=
  {| pn_AccessToken := token;
     pn_PublicKey := Fixture.alice;
     pn_InstallationId := Fixture.installation1 |}.

Definition ring (tokens : list string) : PushNotificationRequest :=
  {| Requests := knock <$> tokens; MessageId := [x09] |}.

Definition readOnlyServer (content : MemoryStore)
  : Server bytes ReadOnlyStore :=
  {| persistence := readOnly content; config := Fixture.configuration |}.

(** The access token is no UUID. *)
Definition badToken : PushNotificationRegistration :=
  {| TokenType := PushNotificationRegistration_APN_TOKEN;
     Token := "tok-1";
     InstallationId := Fixture.installation1;
     AccessToken := "letmein";
     Version := 1;
     AllowedUserList := [];
     Unregister := false |}.

(** The device token is empty. *)
Definition noDevice : PushNotificationRegistration :=
  {| TokenType := PushNotificationRegistration_APN_TOKEN;
     Token := "";
     InstallationId := Fixture.installation1;
     AccessToken := Fixture.token1;
     Version := 1;
     AllowedUserList := [];
     Unregister := false |}.

(** The token type is unknown. *)
Definition noType : PushNotificationRegistration :=
  {| TokenType := PushNotificationRegistration_UNKNOWN_TOKEN_TYPE;
     Token := "tok-1";
     InstallationId := Fixture.installation1;
     AccessToken := Fixture.token1;
     Version := 1;
     AllowedUserList := [];
     Unregister := false |}.

Definition decode (b : bytes) : result PushNotificationRegistration :=
  match b with
  | [x11] => Ok badToken
  | [x12] => Ok noDevice
  | [x13] => Ok noType
  | _ => Err (errors_New "proto: cannot parse invalid wire-format data")
  end.

#[export] Instance collaborators
  : Collaborators bytes string string (list string) := {|
  ecies_GenerateShared sk pk n _ :=
    match sk, pk with
    | Some a, Some b => Ok (take n (a ++ list_byte_of_string b))
    | _, _ => Err (errors_New "ecies: invalid key")
    end;
  common_Decrypt payload _ :=
    if payload is [] then Err (errors_New "payload is too short")
    else Ok payload;
  common_HashPublicKey pk := list_byte_of_string (default "" pk);
  common_Shake256 b := b;
  proto_Unmarshal := decode;
  uuid_Parse := Fixture.parse;
  PushNotificationRegistrationToGoRushRequest batch :=
    (λ rr, Token (Registration' rr)) <$> batch;
|}.

End Sample.

(** ** Properties *)

Section Properties.

Context {PrivateKey PublicKey UUID GoRushRequest : Type}.
Context `{!Collaborators PrivateKey PublicKey UUID GoRushRequest}.
Context {S : Type} `{!Persistence S}.

Implicit Types (p s : Server PrivateKey S) (publicKey : option PublicKey).
Implicit Types (P : PublicKey) (payload decrypted : bytes).
Implicit Types (R registration : PushNotificationRegistration).
Implicit Types (pn : PushNotification) (request : PushNotificationRequest).
Implicit Types (query : PushNotificationQuery).

(** *** The loops *)

Lemma query_loop (registrations : list PushNotificationIDAndRegistration)
    (response : PushNotificationQueryResponse) :
  fold_left
    (λ response idAndResponse,
       {| Info := Info response ++ [queryInfo idAndResponse];
          qr_Success := qr_Success response |})
    registrations response
  = {| Info := Info response ++ (queryInfo <$> registrations);
       qr_Success := qr_Success response |}.
Proof.
  revert response.
  induction registrations as [|idr rest IH]; intros response; cbn.
  - rewrite app_nil_r. by destruct response.
  - rewrite IH. cbn. by rewrite <- app_assoc.
Qed.

Lemma request_loop p (requests : list PushNotification)
    (reports : list PushNotificationReport)
    (batch : list RequestAndRegistration) :
  fold_left (requestStep p) requests (reports, batch)
  = (reports ++ ((λ pn, (requestEntry p pn).1) <$> requests),
     batch ++ omap (λ pn, (requestEntry p pn).2) requests).
Proof.
  revert reports batch.
  induction requests as [|pn rest IH]; intros reports batch; cbn.
  - by rewrite !app_nil_r.
  - destruct (requestEntry p pn) as [report [rr|]]; rewrite IH; cbn;
      by rewrite <- ?app_assoc.
Qed.

Lemma requestBatch_eq p request :
  requestBatch p request
  = omap (λ pn, (requestEntry p pn).2) (Requests request).
Proof. unfold requestBatch. by rewrite request_loop. Qed.

(** What the request handler returns once it has decided to answer. *)
Lemma HandlePushNotificationRequest_answered p request :
  MessageId request ≠ [] →
  HandlePushNotificationRequest p (Some request)
  = (Some {| rs_MessageId := MessageId request;
             Reports := (λ pn, (requestEntry p pn).1) <$> Requests request |},
     if decide (length (requestBatch p request) = 0%nat) then []
     else [{| goRushRequest :=
                PushNotificationRegistrationToGoRushRequest
                  (requestBatch p request);
              url := GorushURL (config p) |}]).
Proof.
  intros Hid. unfold HandlePushNotificationRequest.
  destruct (decide (length (MessageId request) = 0%nat)) as [Hlen|_].
  { by apply nil_length_inv in Hlen. }
  rewrite requestBatch_eq, request_loop. cbn.
  by destruct (decide _).
Qed.

(** An element of the batch is an entry of the request whose claimed
    token is the stored one. *)
Lemma requestBatch_elem p request (rr : RequestAndRegistration) :
  rr ∈ requestBatch p request →
  Request rr ∈ Requests request
  ∧ GetPushNotificationRegistrationByPublicKeyAndInstallationID
      (persistence p) (pn_PublicKey (Request rr))
      (pn_InstallationId (Request rr)) = Ok (Some (Registration' rr))
  ∧ AccessToken (Registration' rr) = pn_AccessToken (Request rr).
Proof.
  rewrite requestBatch_eq, list_elem_of_omap.
  intros (pn & Hin & Hentry). revert Hentry. unfold requestEntry.
  destruct (GetPushNotificationRegistrationByPublicKeyAndInstallationID _ _ _)
    as [[registration|]|e] eqn:Hget; cbn; try done.
  destruct (decide (AccessToken registration ≠ pn_AccessToken pn))
    as [|Heq]; cbn; [done|].
  intros [= <-]. cbn. split_and!; [done..|].
  by destruct (decide (AccessToken registration = pn_AccessToken pn)).
Qed.

(** *** Query handler *)

Lemma HandlePushNotificationQuery_found p query
    (registrations : list PushNotificationIDAndRegistration) :
  PublicKeys query ≠ [] →
  GetPushNotificationRegistrationByPublicKeys (persistence p)
    (PublicKeys query) = Ok registrations →
  HandlePushNotificationQuery p (Some query)
  = {| Info := queryInfo <$> registrations; qr_Success := true |}.
Proof.
  intros Hkeys Hget. unfold HandlePushNotificationQuery.
  destruct (decide (length (PublicKeys query) = 0%nat)) as [Hlen|_].
  { by apply nil_length_inv in Hlen. }
  rewrite Hget, query_loop. done.
Qed.

(** C3, as the code has it.  Every registration the persistence returns
    for a query yields one entry of the response, at the same position,
    with the identity and installation id of the registration.  When the
    allow-list of the registration is non-empty the entry carries that
    list and its access token is left empty; when the allow-list is empty
    the entry carries the access token of the registration and no list.
    An entry never carries both a token and a list.  It carries neither
    exactly when the registration has an empty allow-list and an empty
    access token, as the record kept after an unregistration has; for
    every other registration it carries exactly one of the two. *)
Theorem query_discloses_list_or_token p query
    (registrations : list PushNotificationIDAndRegistration)
    (i : nat) (idAndResponse : PushNotificationIDAndRegistration) :
  PublicKeys query ≠ [] →
  GetPushNotificationRegistrationByPublicKeys (persistence p)
    (PublicKeys query) = Ok registrations →
  registrations !! i = Some idAndResponse →
  let registration := Registration idAndResponse in
  let response := HandlePushNotificationQuery p (Some query) in
  length (Info response) = length registrations
  ∧ ∃ info,
      Info response !! i = Some info
      ∧ qi_PublicKey info = ID idAndResponse
      ∧ qi_InstallationId info = InstallationId registration
      ∧ (AllowedUserList registration ≠ [] →
         qi_AllowedUserList info = AllowedUserList registration
         ∧ qi_AccessToken info = "")
      ∧ (AllowedUserList registration = [] →
         qi_AccessToken info = AccessToken registration
         ∧ qi_AllowedUserList info = [])
      ∧ (qi_AccessToken info = "" ∨ qi_AllowedUserList info = [])
      ∧ (qi_AccessToken info = "" ∧ qi_AllowedUserList info = []
         ↔ AllowedUserList registration = []
           ∧ AccessToken registration = "").
Proof.
  intros Hkeys Hget Hi registration response. subst response.
  rewrite (HandlePushNotificationQuery_found _ _ _ Hkeys Hget). cbn.
  split; [by rewrite length_fmap|].
  exists (queryInfo idAndResponse). rewrite list_lookup_fmap, Hi.
  split; [done|]. unfold queryInfo. fold registration.
  destruct (decide (0 < length (AllowedUserList registration))%nat)
    as [Hlen|Hlen]; cbn.
  - assert (Hne : AllowedUserList registration ≠ []).
    { intros Hnil. rewrite Hnil in Hlen. cbn in Hlen. lia. }
    split_and!; try done; [by left|].
    split; [by intros [_ ?]|by intros [? _]].
  - assert (Hnil : AllowedUserList registration = []).
    { destruct (AllowedUserList registration); [done|]. cbn in Hlen. lia. }
    split_and!; try done; [by right|].
    split; [by intros [? _]|by intros [_ ?]].
Qed.

(** C7.  A null query and a query with no identity get the empty
    response, whose success flag is false.  A query with one identity or
    more, when the lookup does not fail, gets a response whose success
    flag is true; when the lookup finds no registration the list of
    entries of that response is empty. *)
Theorem query_success_flag p :
  HandlePushNotificationQuery p None = {| Info := []; qr_Success := false |}
  ∧ (∀ query, PublicKeys query = [] →
       HandlePushNotificationQuery p (Some query)
       = {| Info := []; qr_Success := false |})
  ∧ (∀ query registrations,
       PublicKeys query ≠ [] →
       GetPushNotificationRegistrationByPublicKeys (persistence p)
         (PublicKeys query) = Ok registrations →
       qr_Success (HandlePushNotificationQuery p (Some query)) = true
       ∧ (registrations = [] →
          HandlePushNotificationQuery p (Some query)
          = {| Info := []; qr_Success := true |})).
Proof.
  split_and!; [done| |].
  - intros query Hnil. unfold HandlePushNotificationQuery.
    by rewrite Hnil.
  - intros query registrations Hkeys Hget.
    rewrite (HandlePushNotificationQuery_found _ _ _ Hkeys Hget).
    split; [done|]. by intros ->.
Qed.

(** C8.  When the lookup of a non-empty query fails, the handler returns
    the empty response: no entry, success flag false.  The error is not
    part of what the handler returns. *)
Theorem query_lookup_failure_is_empty p query (e : error) :
  PublicKeys query ≠ [] →
  GetPushNotificationRegistrationByPublicKeys (persistence p)
    (PublicKeys query) = Err e →
  HandlePushNotificationQuery p (Some query)
  = {| Info := []; qr_Success := false |}.
Proof.
  intros Hkeys Hget. unfold HandlePushNotificationQuery.
  rewrite Hget. by destruct (decide _).
Qed.

(** *** Request handler *)

(** C9.  A null request and a request whose message id is empty get no
    response at all, and the gateway is not called.  A request with a
    non-empty message id gets a response that carries that message id. *)
Theorem request_without_message_id_unanswered p :
  HandlePushNotificationRequest p None = (None, [])
  ∧ (∀ request, MessageId request = [] →
       HandlePushNotificationRequest p (Some request) = (None, []))
  ∧ (∀ request, MessageId request ≠ [] →
       ∃ response,
         (HandlePushNotificationRequest p (Some request)).1 = Some response
         ∧ rs_MessageId response = MessageId request).
Proof.
  split_and!; [done| |].
  - intros request Hnil. unfold HandlePushNotificationRequest.
    by rewrite Hnil.
  - intros request Hid.
    rewrite (HandlePushNotificationRequest_answered _ _ Hid). cbn.
    by eexists.
Qed.

(** C2, as the code has it.  In a request the handler answers (non-empty
    message id; a request without one gets no report at all), an
    entry for which a registration is stored under its identity and
    installation id, with an access token other than the one the entry
    claims, gets at its position a report with success false and error
    WRONG_TOKEN; no element of the batch of successful requests has this
    entry as its request; and the gateway is either not called or
    called once, with the conversion of that batch. *)
Theorem wrong_token_reported_and_not_dispatched p request (i : nat) pn
    registration :
  MessageId request ≠ [] →
  Requests request !! i = Some pn →
  GetPushNotificationRegistrationByPublicKeyAndInstallationID
    (persistence p) (pn_PublicKey pn) (pn_InstallationId pn)
  = Ok (Some registration) →
  AccessToken registration ≠ pn_AccessToken pn →
  ∃ response,
    (HandlePushNotificationRequest p (Some request)).1 = Some response
    ∧ Reports response !! i
      = Some {| rp_Success := false;
                rp_Error := PushNotificationReport_WRONG_TOKEN;
                rp_PublicKey := pn_PublicKey pn;
                rp_InstallationId := pn_InstallationId pn |}
    ∧ (∀ rr, rr ∈ requestBatch p request → Request rr ≠ pn)
    ∧ ((HandlePushNotificationRequest p (Some request)).2 = []
       ∨ (HandlePushNotificationRequest p (Some request)).2
         = [{| goRushRequest :=
                 PushNotificationRegistrationToGoRushRequest
                   (requestBatch p request);
               url := GorushURL (config p) |}]).
Proof.
  intros Hid Hi Hget Htoken.
  rewrite (HandlePushNotificationRequest_answered _ _ Hid). cbn.
  eexists. split; [done|]. cbn. split_and!.
  - rewrite list_lookup_fmap, Hi. cbn. unfold requestEntry.
    rewrite Hget. by destruct (decide _).
  - intros rr Hin <-.
    destruct (requestBatch_elem _ _ _ Hin) as (_ & Hget' & Heq).
    rewrite Hget in Hget'. congruence.
  - destruct (decide _); [by left|by right].
Qed.

(** *** Registration validation *)

(** [ValidateRegistration] after the payload is decrypted and decoded:
    the version test, the installation id, the lookup, then the fields
    of a registration that does not unregister. *)
Lemma ValidateRegistration_decoded p P payload decrypted registration :
  decryptRegistration p (Some P) payload = Ok decrypted →
  proto_Unmarshal decrypted = Ok registration →
  ValidateRegistration p (Some P) (Some payload)
  = if Version registration <? 1 then
      Err ErrInvalidPushNotificationRegistrationVersion
    else if validateUUID (InstallationId registration) is Some _ then
      Err ErrMalformedPushNotificationRegistrationInstallationID
    else
      previousRegistration ←
        GetPushNotificationRegistrationByPublicKeyAndInstallationID
          (persistence p) (common_HashPublicKey (Some P))
          (InstallationId registration);
      if (if previousRegistration is Some previous
          then Version registration <=? Version previous else false) then
        Err ErrInvalidPushNotificationRegistrationVersion
      else if Unregister registration then
        Ok registration
      else if validateUUID (AccessToken registration) is Some _ then
        Err ErrMalformedPushNotificationRegistrationAccessToken
      else if decide (String.length (Token registration) = 0%nat) then
        Err ErrMalformedPushNotificationRegistrationDeviceToken
      else if decide (TokenType registration
                      = PushNotificationRegistration_UNKNOWN_TOKEN_TYPE) then
        Err ErrUnknownPushNotificationRegistrationTokenType
      else
        Ok registration.
Proof.
  intros Hdecrypt Hdecode. unfold ValidateRegistration.
  rewrite Hdecrypt. cbn. by rewrite Hdecode.
Qed.

(** The failures before the message is decoded, each with its error. *)
Lemma ValidateRegistration_nil_payload p publicKey :
  ValidateRegistration p publicKey None
  = Err ErrEmptyPushNotificationRegistrationPayload.
Proof. reflexivity. Qed.

Lemma ValidateRegistration_nil_key p payload :
  ValidateRegistration p None (Some payload)
  = Err ErrEmptyPushNotificationRegistrationPublicKey.
Proof. reflexivity. Qed.

Lemma ValidateRegistration_decrypt_error p P payload (e : error) :
  decryptRegistration p (Some P) payload = Err e →
  ValidateRegistration p (Some P) (Some payload) = Err e.
Proof. intros Hdecrypt. unfold ValidateRegistration. by rewrite Hdecrypt. Qed.

Lemma ValidateRegistration_unmarshal_error p P payload decrypted (e : error) :
  decryptRegistration p (Some P) payload = Ok decrypted →
  proto_Unmarshal decrypted = Err e →
  ValidateRegistration p (Some P) (Some payload)
  = Err ErrCouldNotUnmarshalPushNotificationRegistration.
Proof.
  intros Hdecrypt Hdecode. unfold ValidateRegistration.
  rewrite Hdecrypt. cbn. by rewrite Hdecode.
Qed.

(** What a successful validation returns is the decoded message, and its
    version is above the version of the registration the store holds. *)
Lemma ValidateRegistration_Ok p P payload decrypted registration R
    (previous : option PushNotificationRegistration) :
  decryptRegistration p (Some P) payload = Ok decrypted →
  proto_Unmarshal decrypted = Ok registration →
  GetPushNotificationRegistrationByPublicKeyAndInstallationID
    (persistence p) (common_HashPublicKey (Some P))
    (InstallationId registration) = Ok previous →
  ValidateRegistration p (Some P) (Some payload) = Ok R →
  R = registration
  ∧ 1 ≤ Version R
  ∧ ∀ stored, previous = Some stored → Version stored < Version R.
Proof.
  intros Hdecrypt Hdecode Hget.
  rewrite (ValidateRegistration_decoded _ _ _ _ _ Hdecrypt Hdecode), Hget.
  destruct (Version registration <? 1) eqn:Hversion; [done|].
  apply N.ltb_ge in Hversion.
  destruct (validateUUID (InstallationId registration)); [done|]. cbn.
  assert (Hnewer : (if previous is Some stored
                    then Version registration <=? Version stored
                    else false) = false →
                   ∀ stored, previous = Some stored →
                             Version stored < Version registration).
  { intros Hleb stored ->. by apply N.leb_gt. }
  destruct (if previous is Some _ then _ else _); [done|].
  specialize (Hnewer eq_refl).
  repeat case_match; intros [= <-]; done.
Qed.

(** A string is rejected by [validateUUID] exactly when it is empty or
    the parser fails on it. *)
Lemma validateUUID_Some (u : string) :
  is_Some (validateUUID u) ↔ u = "" ∨ is_Some (err_of (uuid_Parse u)).
Proof.
  unfold validateUUID.
  destruct (decide (String.length u = 0%nat)) as [Hlen|Hlen].
  - split; [|by eauto]. intros _. left. by destruct u.
  - split; [by right|]. intros [->|?]; done.
Qed.

(** C1.  Let a payload from public key [P] decrypt and decode to a
    registration [R2] whose installation id is a valid UUID, and let the
    store hold [R1] under the hash of [P] and that installation id.  If
    the version of [R2] is at most the version of [R1], validation fails
    with the invalid-version error. *)
Theorem stale_version_rejected p P payload decrypted
    (R1 R2 : PushNotificationRegistration) :
  decryptRegistration p (Some P) payload = Ok decrypted →
  proto_Unmarshal decrypted = Ok R2 →
  validateUUID (InstallationId R2) = None →
  GetPushNotificationRegistrationByPublicKeyAndInstallationID
    (persistence p) (common_HashPublicKey (Some P)) (InstallationId R2)
  = Ok (Some R1) →
  Version R2 ≤ Version R1 →
  ValidateRegistration p (Some P) (Some payload)
  = Err ErrInvalidPushNotificationRegistrationVersion.
Proof.
  intros Hdecrypt Hdecode Huuid Hget Hle.
  rewrite (ValidateRegistration_decoded _ _ _ _ _ Hdecrypt Hdecode).
  destruct (Version R2 <? 1); [done|].
  rewrite Huuid, Hget. cbn.
  by apply N.leb_le in Hle as ->.
Qed.

(** C4, as the code has it.  The lookup of the previous registration
    must succeed.  Let a payload decrypt and decode to a registration that sets
    the unregister flag, has version 1 or more and an installation id
    that is a valid UUID, and let the lookup of the previous
    registration succeed and find either nothing or a registration of a
    strictly smaller version.  Then validation succeeds and returns the
    registration, whatever its access token, device token and token
    type are. *)
Theorem unregister_skips_token_checks p P payload decrypted registration
    (previous : option PushNotificationRegistration) :
  decryptRegistration p (Some P) payload = Ok decrypted →
  proto_Unmarshal decrypted = Ok registration →
  Unregister registration = true →
  1 ≤ Version registration →
  validateUUID (InstallationId registration) = None →
  GetPushNotificationRegistrationByPublicKeyAndInstallationID
    (persistence p) (common_HashPublicKey (Some P))
    (InstallationId registration)
  = Ok previous →
  (∀ stored, previous = Some stored →
             Version stored < Version registration) →
  ValidateRegistration p (Some P) (Some payload) = Ok registration.
Proof.
  intros Hdecrypt Hdecode Hun Hversion Huuid Hget Hnewer.
  rewrite (ValidateRegistration_decoded _ _ _ _ _ Hdecrypt Hdecode).
  apply N.ltb_ge in Hversion as ->.
  rewrite Huuid, Hget, Hun. cbn.
  destruct previous as [stored|]; [|done].
  specialize (Hnewer stored eq_refl).
  by apply N.leb_gt in Hnewer as ->.
Qed.

(** C6, as the code has it.  Let a payload decrypt and decode to a
    registration whose installation id is empty or rejected by the UUID
    parser.  The test [version < 1] comes before the installation id:
    with version 1 or more, validation fails with the
    malformed-installation-id error, whatever the store holds or answers
    and whatever the token fields are, so the comparison with the stored
    version and the token checks are not reached; with version 0 it
    fails with the invalid-version error. *)
Theorem malformed_installation_id_rejected p P payload decrypted
    registration :
  decryptRegistration p (Some P) payload = Ok decrypted →
  proto_Unmarshal decrypted = Ok registration →
  InstallationId registration = ""
  ∨ is_Some (err_of (uuid_Parse (InstallationId registration))) →
  (1 ≤ Version registration →
   ValidateRegistration p (Some P) (Some payload)
   = Err ErrMalformedPushNotificationRegistrationInstallationID)
  ∧ (Version registration < 1 →
     ValidateRegistration p (Some P) (Some payload)
     = Err ErrInvalidPushNotificationRegistrationVersion).
Proof.
  intros Hdecrypt Hdecode Hbad.
  rewrite (ValidateRegistration_decoded _ _ _ _ _ Hdecrypt Hdecode).
  apply validateUUID_Some in Hbad as [e ->].
  split; intros Hversion.
  - by apply N.ltb_ge in Hversion as ->.
  - by apply N.ltb_lt in Hversion as ->.
Qed.

(** *** Registration handler *)

(** C5.  When validation of a registration payload fails, the handler
    leaves the store as it is and returns a response with success false
    whose error code is VERSION_MISMATCH if and only if the validation
    error is the invalid-version error, and MALFORMED_MESSAGE for every
    other validation error. *)
Theorem validation_failure_response_code s publicKey
    (payload : option bytes) (err : error) :
  ValidateRegistration s publicKey payload = Err err →
  let '(s', _, response) :=
    HandlePushNotificationRegistration s publicKey payload in
  s' = s
  ∧ rr_Success response = false
  ∧ (rr_Error response
     = PushNotificationRegistrationResponse_VERSION_MISMATCH
     ↔ err = ErrInvalidPushNotificationRegistrationVersion)
  ∧ (err ≠ ErrInvalidPushNotificationRegistrationVersion →
     rr_Error response
     = PushNotificationRegistrationResponse_MALFORMED_MESSAGE).
Proof.
  intros Hvalidate. unfold HandlePushNotificationRegistration.
  rewrite Hvalidate. cbn.
  destruct (decide (err = ErrInvalidPushNotificationRegistrationVersion));
    split_and!; try done.
Qed.

(** X24.  The invariant of the data model: when the handler accepts a
    registration for a key under which the store (with get/set semantics)
    holds [R1], the registration stored afterwards has a version strictly
    above the version of [R1]. *)
Lemma stored_registration_replaced_by_newer `{!PersistenceGetSet S}
    s P payload decrypted registration
    (R1 : PushNotificationRegistration) s' logs response :
  decryptRegistration s (Some P) payload = Ok decrypted →
  proto_Unmarshal decrypted = Ok registration →
  GetPushNotificationRegistrationByPublicKeyAndInstallationID
    (persistence s) (common_HashPublicKey (Some P))
    (InstallationId registration) = Ok (Some R1) →
  HandlePushNotificationRegistration s (Some P) (Some payload)
  = (s', logs, response) →
  rr_Success response = true →
  ∃ stored,
    GetPushNotificationRegistrationByPublicKeyAndInstallationID
      (persistence s') (common_HashPublicKey (Some P))
      (InstallationId registration) = Ok (Some stored)
    ∧ Version R1 < Version stored.
Proof.
  intros Hdecrypt Hdecode Hget. unfold HandlePushNotificationRegistration.
  destruct (ValidateRegistration s (Some P) (Some payload))
    as [R|e] eqn:Hvalidate.
  2: { intros [= <- <- <-]. done. }
  destruct (ValidateRegistration_Ok _ _ _ _ _ _ _ Hdecrypt Hdecode Hget
              Hvalidate) as (-> & _ & Hnewer).
  specialize (Hnewer R1 eq_refl).
  destruct (Unregister registration);
    destruct (SavePushNotificationRegistration _ _ _) as [store|e] eqn:Hsave;
    intros [= <- <- <-]; try done; intros _;
    apply get_after_save in Hsave; cbn in Hsave;
    eexists; (split; [exact Hsave|]); done.
Qed.

(** The handler on a valid unregistration: it saves the registration
    reduced to its version and installation id. *)
Lemma HandlePushNotificationRegistration_unregister s publicKey
    (payload : option bytes) registration s' logs response :
  ValidateRegistration s publicKey payload = Ok registration →
  Unregister registration = true →
  HandlePushNotificationRegistration s publicKey payload
  = (s', logs, response) →
  rr_Success response = true →
  SavePushNotificationRegistration (persistence s)
    (common_HashPublicKey publicKey)
    {| TokenType := PushNotificationRegistration_UNKNOWN_TOKEN_TYPE;
       Token := "";
       InstallationId := InstallationId registration;
       AccessToken := "";
       Version := Version registration;
       AllowedUserList := [];
       Unregister := false |}
  = Ok (persistence s')
  ∧ config s' = config s.
Proof.
  intros Hvalidate Hun. unfold HandlePushNotificationRegistration.
  rewrite Hvalidate, Hun. cbn.
  destruct (SavePushNotificationRegistration _ _ _) as [store|e];
    intros [= <- <- <-]; cbn; done.
Qed.

(** C10, as the code has it.  The later request must be one the handler
    answers (non-empty message id).
    Let the handler accept an unregistration from [publicKey]
    (validation succeeds, the unregister flag is set, the response
    reports success) on a store with get/set semantics.  Afterwards the
    registration stored under the hash of the key and the installation
    id has an empty access token.  A later request the handler answers,
    with an entry for that identity and installation whose claimed
    access token is the empty string, gets for that entry a report with
    success true and no error, the entry paired with the stored
    registration is in the batch of successful requests, and the gateway
    is called once with the conversion of that batch. *)
Theorem unregistered_accepts_empty_token `{!PersistenceGetSet S}
    s publicKey (payload : option bytes) registration s' logs response
    request (i : nat) pn :
  ValidateRegistration s publicKey payload = Ok registration →
  Unregister registration = true →
  HandlePushNotificationRegistration s publicKey payload
  = (s', logs, response) →
  rr_Success response = true →
  MessageId request ≠ [] →
  Requests request !! i = Some pn →
  pn_PublicKey pn = common_HashPublicKey publicKey →
  pn_InstallationId pn = InstallationId registration →
  pn_AccessToken pn = "" →
  ∃ stored answer,
    GetPushNotificationRegistrationByPublicKeyAndInstallationID
      (persistence s') (common_HashPublicKey publicKey)
      (InstallationId registration) = Ok (Some stored)
    ∧ AccessToken stored = ""
    ∧ (HandlePushNotificationRequest s' (Some request)).1 = Some answer
    ∧ Reports answer !! i
      = Some {| rp_Success := true;
                rp_Error := PushNotificationReport_UNKNOWN_ERROR_TYPE;
                rp_PublicKey := pn_PublicKey pn;
                rp_InstallationId := pn_InstallationId pn |}
    ∧ {| Request := pn; Registration' := stored |} ∈ requestBatch s' request
    ∧ (HandlePushNotificationRequest s' (Some request)).2
      = [{| goRushRequest :=
              PushNotificationRegistrationToGoRushRequest
                (requestBatch s' request);
            url := GorushURL (config s') |}].
Proof.
  intros Hvalidate Hun Hhandle Hok Hid Hi Hkey Hinst Htoken.
  destruct (HandlePushNotificationRegistration_unregister
              _ _ _ _ _ _ _ Hvalidate Hun Hhandle Hok) as [Hsave _].
  apply get_after_save in Hsave. cbn in Hsave.
  match type of Hsave with _ = Ok (Some ?r) => set (stored := r) in * end.
  assert (Hentry : requestEntry s' pn
            = ({| rp_Success := true;
                  rp_Error := PushNotificationReport_UNKNOWN_ERROR_TYPE;
                  rp_PublicKey := pn_PublicKey pn;
                  rp_InstallationId := pn_InstallationId pn |},
               Some {| Request := pn; Registration' := stored |})).
  { unfold requestEntry. rewrite Hkey, Hinst, Hsave, Htoken. cbn.
    by destruct (decide _). }
  assert (Hin : {| Request := pn; Registration' := stored |}
                ∈ requestBatch s' request).
  { rewrite requestBatch_eq, list_elem_of_omap. exists pn.
    split; [by eapply list_elem_of_lookup_2|]. by rewrite Hentry. }
  exists stored. eexists. split; [exact Hsave|]. split; [done|].
  rewrite (HandlePushNotificationRequest_answered _ _ Hid). cbn.
  split_and!; [done| |exact Hin|].
  - cbn. rewrite list_lookup_fmap, Hi. cbn. by rewrite Hentry.
  - destruct (decide _) as [Hlen|_]; [|done].
    apply nil_length_inv in Hlen. rewrite Hlen in Hin.
    by apply not_elem_of_nil in Hin.
Qed.

End Properties.

(** ** The properties on the concrete deployment *)

Section Runs.

Import Fixture.

(** Alice replays version 1 after version 2 is stored. *)
Lemma stale_version_rejected_run :
  ValidateRegistration (server (holding register2)) (Some alice) (Some [x01])
  = Err ErrInvalidPushNotificationRegistrationVersion.
Proof.
  apply (stale_version_rejected (server (holding register2)) alice
           [x01] [x01] register2 register1);
    [reflexivity | reflexivity | reflexivity | reflexivity | ].
  vm_compute. discriminate.
Defined.

(** A request for Alice's installation with a token that is not hers. *)
Lemma wrong_token_run :
  ∃ response,
    (HandlePushNotificationRequest (server (holding register1))
       (Some {| Requests := [{| pn_AccessToken := "guess";
                                pn_PublicKey := alice;
                                pn_InstallationId := installation1 |}];
                MessageId := [x09] |})).1 = Some response
    ∧ Reports response !! 0%nat
      = Some {| rp_Success := false;
                rp_Error := PushNotificationReport_WRONG_TOKEN;
                rp_PublicKey := alice;
                rp_InstallationId := installation1 |}.
Proof.
  destruct (wrong_token_reported_and_not_dispatched
              (server (holding register1))
              {| Requests := [{| pn_AccessToken := "guess";
                                 pn_PublicKey := alice;
                                 pn_InstallationId := installation1 |}];
                 MessageId := [x09] |}
              0%nat
              {| pn_AccessToken := "guess";
                 pn_PublicKey := alice;
                 pn_InstallationId := installation1 |}
              register1)
    as (response & Hresponse & Hreport & _);
    [discriminate | reflexivity | reflexivity | vm_compute; discriminate | ].
  exists response. split; [exact Hresponse | exact Hreport].
Defined.

(** A query for Alice when her registration has an allow-list. *)
Lemma query_discloses_list_run :
  ∃ info,
    Info (HandlePushNotificationQuery (server (holding allowListed))
            (Some {| PublicKeys := [alice] |})) !! 0%nat = Some info
    ∧ qi_AllowedUserList info = [[x0a; x0b]; [x0c]]
    ∧ qi_AccessToken info = "".
Proof.
  destruct (query_discloses_list_or_token
              (server (holding allowListed)) {| PublicKeys := [alice] |}
              [{| ID := alice; Registration := allowListed |}] 0%nat
              {| ID := alice; Registration := allowListed |})
    as (_ & info & Hinfo & _ & _ & Hlist & _);
    [discriminate | vm_compute; reflexivity | reflexivity | ].
  exists info. split; [exact Hinfo|]. apply Hlist. discriminate.
Defined.

(** Version 3 unregisters with rubbish in the token fields. *)
Lemma unregister_skips_token_checks_run :
  ValidateRegistration (server (holding register2)) (Some alice) (Some [x03])
  = Ok unregister3.
Proof.
  apply (unregister_skips_token_checks (server (holding register2)) alice
           [x03] [x03] unregister3 (Some register2));
    [reflexivity | reflexivity | reflexivity | vm_compute; discriminate
    | reflexivity | reflexivity | ].
  intros stored [= <-]. reflexivity.
Defined.

(** A payload the decoder does not know: the response says
    MALFORMED_MESSAGE. *)
Lemma validation_failure_response_code_run :
  rr_Error (HandlePushNotificationRegistration (server ∅) (Some alice)
              (Some [xff])).2
  = PushNotificationRegistrationResponse_MALFORMED_MESSAGE.
Proof.
  pose proof (validation_failure_response_code (server ∅) (Some alice)
                (Some [xff])
                ErrCouldNotUnmarshalPushNotificationRegistration
                eq_refl) as Hcode.
  destruct (HandlePushNotificationRegistration (server ∅) (Some alice)
              (Some [xff])) as [[s' logs] response].
  destruct Hcode as (_ & _ & _ & Hmalformed).
  apply Hmalformed. discriminate.
Defined.

(** Version 1 with an installation id that is no UUID, on a store whose
    lookups fail. *)
Lemma malformed_installation_id_rejected_run :
  ValidateRegistration broken (Some alice) (Some [x05])
  = Err ErrMalformedPushNotificationRegistrationInstallationID.
Proof.
  apply (malformed_installation_id_rejected broken alice [x05] [x05]
           badInstallation);
    [reflexivity | reflexivity | | vm_compute; discriminate].
  right. vm_compute. eexists. reflexivity.
Defined.

(** C6 as stated fails: the registration [version0] has an empty
    installation id and version 0; the version test comes first in
    [ValidateRegistration], so the error is the invalid-version error
    and not the malformed-installation-id error. *)
Lemma installation_id_checked_after_version :
  proto_Unmarshal [x04] = Ok version0
  ∧ InstallationId version0 = ""
  ∧ ValidateRegistration (server ∅) (Some alice) (Some [x04])
    = Err ErrInvalidPushNotificationRegistrationVersion
  ∧ ValidateRegistration (server ∅) (Some alice) (Some [x04])
    ≠ Err ErrMalformedPushNotificationRegistrationInstallationID.
Proof.
  split_and!; [reflexivity | reflexivity | reflexivity | discriminate].
Qed.

(** A query for Alice on an empty store. *)
Lemma query_success_flag_run :
  HandlePushNotificationQuery (server ∅) (Some {| PublicKeys := [alice] |})
  = {| Info := []; qr_Success := true |}.
Proof.
  destruct (query_success_flag (server ∅)) as (_ & _ & Hfound).
  apply (Hfound {| PublicKeys := [alice] |} []);
    [discriminate | vm_compute; reflexivity | reflexivity].
Defined.

(** A query for Alice on a store whose lookups fail. *)
Lemma query_lookup_failure_run :
  HandlePushNotificationQuery broken (Some {| PublicKeys := [alice] |})
  = {| Info := []; qr_Success := false |}.
Proof.
  apply (query_lookup_failure_is_empty broken {| PublicKeys := [alice] |}
           (errors_New "sql: database is closed"));
    [discriminate | reflexivity].
Defined.

(** A request without a message id, and one with a message id. *)
Lemma request_message_id_run :
  HandlePushNotificationRequest (server ∅)
    (Some {| Requests := []; MessageId := [] |}) = (None, [])
  ∧ ∃ response,
      (HandlePushNotificationRequest (server ∅)
         (Some {| Requests := []; MessageId := [x09] |})).1 = Some response
      ∧ rs_MessageId response = [x09].
Proof.
  destruct (request_without_message_id_unanswered (server ∅))
    as (_ & Hsilent & Hanswered).
  split.
  - apply (Hsilent {| Requests := []; MessageId := [] |}). reflexivity.
  - apply (Hanswered {| Requests := []; MessageId := [x09] |}). discriminate.
Defined.

(** Alice unregisters; a request with the empty token is then accepted
    and sent to the gateway. *)
Lemma unregistered_accepts_empty_token_run :
  let after :=
    (HandlePushNotificationRegistration (server (holding register2))
       (Some alice) (Some [x03])).1.1 in
  let request :=
    {| Requests := [{| pn_AccessToken := "";
                       pn_PublicKey := alice;
                       pn_InstallationId := installation1 |}];
       MessageId := [x09] |} in
  ∃ answer,
    (HandlePushNotificationRequest after (Some request)).1 = Some answer
    ∧ Reports answer !! 0%nat
      = Some {| rp_Success := true;
                rp_Error := PushNotificationReport_UNKNOWN_ERROR_TYPE;
                rp_PublicKey := alice;
                rp_InstallationId := installation1 |}
    ∧ length (HandlePushNotificationRequest after (Some request)).2 = 1%nat.
Proof.
  intros after request.
  destruct (unregistered_accepts_empty_token
              (server (holding register2)) (Some alice) (Some [x03])
              unregister3 after
              (HandlePushNotificationRegistration
                 (server (holding register2)) (Some alice) (Some [x03])).1.2
              (HandlePushNotificationRegistration
                 (server (holding register2)) (Some alice) (Some [x03])).2
              request 0%nat
              {| pn_AccessToken := "";
                 pn_PublicKey := alice;
                 pn_InstallationId := installation1 |})
    as (stored & answer & _ & _ & Hanswer & Hreport & _ & Hcall);
    [reflexivity | reflexivity | reflexivity | reflexivity | discriminate
    | reflexivity | reflexivity | reflexivity | reflexivity | ].
  exists answer. split; [exact Hanswer|]. split; [exact Hreport|].
  rewrite Hcall. reflexivity.
Defined.

(** C2 as stated fails for a request without message id: its entry
    claims a token other than the one stored for Alice, yet the handler
    returns no response, hence no report for the entry. *)
Lemma wrong_token_without_message_id_unreported :
  GetPushNotificationRegistrationByPublicKeyAndInstallationID
    (holding register1) alice installation1 = Ok (Some register1)
  ∧ AccessToken register1 ≠ "guess"
  ∧ HandlePushNotificationRequest (server (holding register1))
      (Some {| Requests := [{| pn_AccessToken := "guess";
                               pn_PublicKey := alice;
                               pn_InstallationId := installation1 |}];
               MessageId := [] |})
    = (None, []).
Proof. split_and!; [reflexivity | discriminate | reflexivity]. Qed.

(** C3 as stated fails for the record kept after an unregistration.
    Alice unregisters with version 3; the store then holds for her a
    registration with an empty allow-list and an empty access token, and
    the entry a query returns for it carries neither a token nor a list. *)
Lemma unregistered_record_discloses_nothing :
  GetPushNotificationRegistrationByPublicKeyAndInstallationID
    (persistence
       (HandlePushNotificationRegistration (server (holding register2))
          (Some alice) (Some [x03])).1.1)
    alice installation1
  = Ok (Some {| TokenType := PushNotificationRegistration_UNKNOWN_TOKEN_TYPE;
                Token := "";
                InstallationId := installation1;
                AccessToken := "";
                Version := 3;
                AllowedUserList := [];
                Unregister := false |})
  ∧ Info (HandlePushNotificationQuery
            (HandlePushNotificationRegistration (server (holding register2))
               (Some alice) (Some [x03])).1.1
            (Some {| PublicKeys := [alice] |}))
    = [{| qi_AccessToken := "";
          qi_InstallationId := installation1;
          qi_PublicKey := alice;
          qi_AllowedUserList := [] |}].
Proof. split; [reflexivity | vm_compute; reflexivity]. Qed.

(** C4 as stated fails on a store whose lookup fails: the unregistration
    [unregister3] has version 3 and a valid installation id, nothing
    stored has a version as high, yet validation returns the error of
    the store. *)
Lemma unregister_rejected_when_lookup_fails :
  proto_Unmarshal [x03] = Ok unregister3
  ∧ Unregister unregister3 = true
  ∧ 1 ≤ Version unregister3
  ∧ validateUUID (InstallationId unregister3) = None
  ∧ ValidateRegistration broken (Some alice) (Some [x03])
    = Err (errors_New "sql: database is closed").
Proof.
  split_and!;
    [reflexivity | reflexivity | vm_compute; discriminate | reflexivity
    | reflexivity].
Qed.

(** C10 as stated fails for a later request without message id: after
    Alice unregisters, an entry for her installation that claims the
    empty token gets no report and the gateway is not called. *)
Lemma empty_token_without_message_id_unreported :
  HandlePushNotificationRequest
    (HandlePushNotificationRegistration (server (holding register2))
       (Some alice) (Some [x03])).1.1
    (Some {| Requests := [{| pn_AccessToken := "";
                             pn_PublicKey := alice;
                             pn_InstallationId := installation1 |}];
             MessageId := [] |})
  = (None, []).
Proof. reflexivity. Qed.

End Runs.


(** ** Further properties of the handlers *)

Section Handlers.

Context {PrivateKey PublicKey UUID GoRushRequest : Type}.
Context `{!Collaborators PrivateKey PublicKey UUID GoRushRequest}.
Context {S : Type} `{!Persistence S}.

Implicit Types (p s : Server PrivateKey S) (publicKey : option PublicKey).
Implicit Types (P : PublicKey) (payload decrypted : bytes).
Implicit Types (R registration : PushNotificationRegistration).
Implicit Types (pn : PushNotification) (request : PushNotificationRequest).
Implicit Types (query : PushNotificationQuery).

(** *** One entry of a request *)

(** Case analysis on the lookup and the token comparison of an entry. *)
Ltac entry_cases p pn :=
  unfold requestEntry;
  destruct (GetPushNotificationRegistrationByPublicKeyAndInstallationID
              (persistence p) (pn_PublicKey pn) (pn_InstallationId pn))
    as [[?registration|]|?e] eqn:?Hget; cbn;
  [destruct (decide (AccessToken registration ≠ pn_AccessToken pn))
     as [?Hne|?Heq]; cbn | | ].

Lemma requestEntry_key p pn :
  rp_PublicKey (requestEntry p pn).1 = pn_PublicKey pn
  ∧ rp_InstallationId (requestEntry p pn).1 = pn_InstallationId pn.
Proof. entry_cases p pn; done. Qed.

Lemma requestEntry_accepted p pn (rr : RequestAndRegistration) :
  (requestEntry p pn).2 = Some rr
  ↔ ∃ registration,
      GetPushNotificationRegistrationByPublicKeyAndInstallationID
        (persistence p) (pn_PublicKey pn) (pn_InstallationId pn)
      = Ok (Some registration)
      ∧ AccessToken registration = pn_AccessToken pn
      ∧ rr = {| Request := pn; Registration' := registration |}.
Proof.
  entry_cases p pn; split; try done;
    try (by intros (? & [= <-] & ? & _)); try (by intros (? & [=] & _)).
  - intros [= <-]. exists registration. split_and!; [done| |done].
    by destruct (decide (AccessToken registration = pn_AccessToken pn)).
  - by intros (? & [= <-] & _ & ->).
Qed.

Lemma requestEntry_success p pn :
  rp_Success (requestEntry p pn).1 = true ↔ is_Some (requestEntry p pn).2.
Proof.
  entry_cases p pn; split; try done; try (by intros [? [=]]); by eauto.
Qed.

(** *** Request handler *)

(** X1.  In a request the handler answers there is one report per entry,
    in the order of the entries, and each report carries the identity and
    the installation id of its entry. *)
Theorem request_reports_follow_entries p request :
  MessageId request ≠ [] →
  ∃ response,
    (HandlePushNotificationRequest p (Some request)).1 = Some response
    ∧ length (Reports response) = length (Requests request)
    ∧ ∀ (i : nat) pn,
        Requests request !! i = Some pn →
        ∃ report,
          Reports response !! i = Some report
          ∧ rp_PublicKey report = pn_PublicKey pn
          ∧ rp_InstallationId report = pn_InstallationId pn.
Proof.
  intros Hid. rewrite (HandlePushNotificationRequest_answered _ _ Hid).
  eexists. split; [done|]. cbn. split; [by rewrite length_fmap|].
  intros i pn Hi. exists (requestEntry p pn).1.
  rewrite list_lookup_fmap, Hi. split; [done|]. apply requestEntry_key.
Qed.

(** X2.  In a request the handler answers (non-empty message id), an
    entry for which no registration is stored gets the report
    {success false, NOT_REGISTERED}; an entry whose lookup fails gets
    {success false, UNKNOWN_ERROR_TYPE}.  Neither is in the batch for the
    gateway. *)
Theorem unknown_installation_reported_and_not_dispatched p request (i : nat)
    pn :
  MessageId request ≠ [] →
  Requests request !! i = Some pn →
  ∀ (code : PushNotificationReport_ErrorType),
    (GetPushNotificationRegistrationByPublicKeyAndInstallationID
       (persistence p) (pn_PublicKey pn) (pn_InstallationId pn) = Ok None
     ∧ code = PushNotificationReport_NOT_REGISTERED)
    ∨ (is_Some (err_of
         (GetPushNotificationRegistrationByPublicKeyAndInstallationID
            (persistence p) (pn_PublicKey pn) (pn_InstallationId pn)))
       ∧ code = PushNotificationReport_UNKNOWN_ERROR_TYPE) →
    ∃ response,
      (HandlePushNotificationRequest p (Some request)).1 = Some response
      ∧ Reports response !! i
        = Some {| rp_Success := false;
                  rp_Error := code;
                  rp_PublicKey := pn_PublicKey pn;
                  rp_InstallationId := pn_InstallationId pn |}
      ∧ ∀ rr, rr ∈ requestBatch p request → Request rr ≠ pn.
Proof.
  intros Hid Hi code Hlookup.
  rewrite (HandlePushNotificationRequest_answered _ _ Hid).
  eexists. split; [done|]. cbn. rewrite list_lookup_fmap, Hi. cbn. split.
  - unfold requestEntry.
    destruct Hlookup as [[-> ->]|[[e He] ->]]; [done|].
    by destruct (GetPushNotificationRegistrationByPublicKeyAndInstallationID
                   _ _ _).
  - intros rr Hin <-.
    destruct (requestBatch_elem _ _ _ Hin) as (_ & Hget & _).
    rewrite Hget in Hlookup. by destruct Hlookup as [[[=] _]|[[? [=]] _]].
Qed.

(** X3.  The report of an entry says success exactly when a registration
    is stored for the entry and its access token is the one the entry
    claims; the report then has no error code. *)
Theorem request_success_iff_token_matches p request (i : nat) pn response
    report :
  (HandlePushNotificationRequest p (Some request)).1 = Some response →
  Requests request !! i = Some pn →
  Reports response !! i = Some report →
  (rp_Success report = true
   ↔ ∃ registration,
       GetPushNotificationRegistrationByPublicKeyAndInstallationID
         (persistence p) (pn_PublicKey pn) (pn_InstallationId pn)
       = Ok (Some registration)
       ∧ AccessToken registration = pn_AccessToken pn)
  ∧ (rp_Success report = true →
     rp_Error report = PushNotificationReport_UNKNOWN_ERROR_TYPE).
Proof.
  intros Hresponse Hi Hreport.
  assert (Hid : MessageId request ≠ []).
  { intros Hnil. unfold HandlePushNotificationRequest in Hresponse.
    by rewrite Hnil in Hresponse. }
  rewrite (HandlePushNotificationRequest_answered _ _ Hid) in Hresponse.
  injection Hresponse as <-. cbn in Hreport.
  rewrite list_lookup_fmap, Hi in Hreport. injection Hreport as <-.
  split.
  - rewrite requestEntry_success. split.
    + intros [rr Hrr]. apply requestEntry_accepted in Hrr
        as (registration & ? & ? & _). by exists registration.
    + intros (registration & Hget & Htoken). eexists.
      apply requestEntry_accepted. by exists registration.
  - entry_cases p pn; done.
Qed.

(** The accepted entries are as many as the reports that say success. *)
Lemma accepted_count p (requests : list PushNotification) :
  length (omap (λ pn, (requestEntry p pn).2) requests)
  = length (filter (λ report, rp_Success report = true)
              ((λ pn, (requestEntry p pn).1) <$> requests)).
Proof.
  induction requests as [|pn rest IH]; [done|].
  rewrite fmap_cons, filter_cons. cbn.
  destruct (decide (rp_Success (requestEntry p pn).1 = true)) as [Hs|Hs].
  - apply requestEntry_success in Hs as [rr Hrr]. rewrite Hrr. cbn.
    by rewrite IH.
  - destruct (requestEntry p pn).2 as [rr|] eqn:Hrr; [|done].
    destruct Hs. apply requestEntry_success. by rewrite Hrr.
Qed.

(** X4.  In a request the handler answers, the batch handed to the
    gateway has as many elements as there are reports with success true.
    The gateway is called at most once, and it is called exactly when
    some report says success. *)
Theorem gateway_called_iff_some_success p request :
  MessageId request ≠ [] →
  ∃ response,
    (HandlePushNotificationRequest p (Some request)).1 = Some response
    ∧ length (requestBatch p request)
      = length (filter (λ report, rp_Success report = true)
                  (Reports response))
    ∧ (length (HandlePushNotificationRequest p (Some request)).2 ≤ 1)%nat
    ∧ ((HandlePushNotificationRequest p (Some request)).2 ≠ []
       ↔ ∃ report, report ∈ Reports response ∧ rp_Success report = true).
Proof.
  intros Hid. rewrite (HandlePushNotificationRequest_answered _ _ Hid).
  eexists. split; [done|]. cbn.
  pose proof (accepted_count p (Requests request)) as Hcount.
  rewrite <- requestBatch_eq in Hcount. split; [done|].
  destruct (decide (length (requestBatch p request) = 0%nat)) as [Hlen|Hlen];
    cbn; (split; [lia|]); split; try done.
  - intros (report & Hin & Hs).
    rewrite Hlen in Hcount. symmetry in Hcount.
    apply nil_length_inv in Hcount.
    assert (Hfiltered : report ∈ filter (λ report, rp_Success report = true)
                          ((λ pn, (requestEntry p pn).1) <$> Requests request))
      by by apply list_elem_of_filter.
    rewrite Hcount in Hfiltered. by apply not_elem_of_nil in Hfiltered.
  - intros _. rewrite Hcount in Hlen.
    destruct (filter _ _) as [|report rest] eqn:Hfilter; [done|].
    exists report.
    assert (Hin : report ∈ report :: rest) by apply list_elem_of_here.
    rewrite <- Hfilter in Hin. apply list_elem_of_filter in Hin as [? ?].
    done.
Qed.

(** X5.  The requests of the batch are entries of the request, in the
    order of the request: the batch never holds an entry the request does
    not have, and never reorders. *)
Theorem request_batch_in_request_order p request :
  (Request <$> requestBatch p request) `sublist_of` Requests request.
Proof.
  rewrite requestBatch_eq.
  induction (Requests request) as [|pn rest IH]; [done|]. cbn.
  destruct (requestEntry p pn).2 as [rr|] eqn:Hrr; cbn.
  - apply requestEntry_accepted in Hrr as (registration & _ & _ & ->).
    cbn. by apply sublist_skip.
  - by apply sublist_cons.
Qed.

(** *** Query handler *)

(** X6.  No entry of a query response carries both an access token and an
    allow-list, whatever the query and whatever the store returns. *)
Theorem query_entry_never_has_both p (query : option PushNotificationQuery)
    (info : PushNotificationQueryInfo) :
  info ∈ Info (HandlePushNotificationQuery p query) →
  qi_AccessToken info = "" ∨ qi_AllowedUserList info = [].
Proof.
  unfold HandlePushNotificationQuery.
  destruct query as [query|]; [|by intros ?%not_elem_of_nil].
  destruct (decide _); [by intros ?%not_elem_of_nil|].
  destruct (GetPushNotificationRegistrationByPublicKeys _ _)
    as [registrations|e]; [|by intros ?%not_elem_of_nil].
  rewrite query_loop. cbn.
  intros (idAndResponse & -> & _)%list_elem_of_fmap.
  unfold queryInfo. destruct (decide _); cbn; by eauto.
Qed.

(** X7.  A query response whose success flag is false has no entry; the
    flag is true exactly for a query with one identity or more whose
    lookup succeeded. *)
Theorem query_failure_has_no_entries p
    (query : option PushNotificationQuery) :
  (qr_Success (HandlePushNotificationQuery p query) = false →
   Info (HandlePushNotificationQuery p query) = [])
  ∧ (qr_Success (HandlePushNotificationQuery p query) = true
     ↔ ∃ query' registrations,
         query = Some query'
         ∧ PublicKeys query' ≠ []
         ∧ GetPushNotificationRegistrationByPublicKeys (persistence p)
             (PublicKeys query') = Ok registrations).
Proof.
  unfold HandlePushNotificationQuery.
  destruct query as [query|].
  2: { split; [done|]. split; [done|]. by intros (? & ? & [=] & _). }
  destruct (decide (length (PublicKeys query) = 0%nat)) as [Hlen|Hlen].
  { split; [done|]. split; [done|].
    intros (? & ? & [= <-] & Hne & _). by apply nil_length_inv in Hlen. }
  destruct (GetPushNotificationRegistrationByPublicKeys _ _)
    as [registrations|e] eqn:Hget; cbn.
  - split; [done|]. split; [|done]. intros _.
    exists query, registrations. split_and!; [done| |done].
    intros Hnil. by rewrite Hnil in Hlen.
  - split; [done|]. split; [done|].
    intros (? & ? & [= <-] & _ & Hget'). congruence.
Qed.

(** *** Registration validation *)

(** X8.  What validation accepts is well formed: both arguments are
    present, the payload decrypts and decodes to the registration
    returned, whose version is 1 or more, whose installation id passes
    [validateUUID], whose version is above that of any registration the
    store holds for it, and which, unless it unregisters, has an access
    token that passes [validateUUID], a non-empty device token and a known
    token type. *)
Theorem validation_accepts_only_well_formed p publicKey
    (payload : option bytes) R :
  ValidateRegistration p publicKey payload = Ok R →
  ∃ P payload' decrypted,
    publicKey = Some P
    ∧ payload = Some payload'
    ∧ decryptRegistration p (Some P) payload' = Ok decrypted
    ∧ proto_Unmarshal decrypted = Ok R
    ∧ 1 ≤ Version R
    ∧ validateUUID (InstallationId R) = None
    ∧ (∀ previous,
         GetPushNotificationRegistrationByPublicKeyAndInstallationID
           (persistence p) (common_HashPublicKey (Some P)) (InstallationId R)
         = Ok (Some previous) →
         Version previous < Version R)
    ∧ (Unregister R = false →
       validateUUID (AccessToken R) = None
       ∧ Token R ≠ ""
       ∧ TokenType R ≠ PushNotificationRegistration_UNKNOWN_TOKEN_TYPE).
Proof.
  destruct payload as [payload'|]; [|done].
  destruct publicKey as [P|]; [|done].
  intros Hvalidate.
  destruct (decryptRegistration p (Some P) payload') as [decrypted|e]
    eqn:Hdecrypt.
  2: { by rewrite (ValidateRegistration_decrypt_error _ _ _ _ Hdecrypt)
         in Hvalidate. }
  destruct (proto_Unmarshal decrypted) as [registration|e] eqn:Hdecode.
  2: { by rewrite (ValidateRegistration_unmarshal_error _ _ _ _ _
                     Hdecrypt Hdecode) in Hvalidate. }
  rewrite (ValidateRegistration_decoded _ _ _ _ _ Hdecrypt Hdecode)
    in Hvalidate.
  exists P, payload', decrypted.
  destruct (Version registration <? 1) eqn:Hversion; [done|].
  apply N.ltb_ge in Hversion.
  destruct (validateUUID (InstallationId registration)) eqn:Hid; [done|].
  destruct (GetPushNotificationRegistrationByPublicKeyAndInstallationID _ _ _)
    as [previous|e] eqn:Hget; [|done]. cbn in Hvalidate.
  assert (Hnewer : ∀ stored, previous = Some stored →
                             Version stored < Version registration).
  { intros stored ->. destruct (_ <=? _) eqn:Hleb; [done|].
    by apply N.leb_gt. }
  destruct (if previous is Some _ then _ else _); [done|].
  assert (R = registration) as ->.
  { repeat case_match; congruence. }
  rewrite Hget. split_and!; try done.
  - intros stored [= ->]. by apply Hnewer.
  - intros Hun. rewrite Hun in Hvalidate.
    destruct (validateUUID (AccessToken registration)); [done|].
    destruct (decide (String.length (Token registration) = 0%nat))
      as [|Hlen]; [done|].
    destruct (decide (TokenType registration = _)); [done|].
    split_and!; [done| |done]. intros Hempty. by rewrite Hempty in Hlen.
Qed.

(** X9.  A registration that does not unregister is accepted when the
    payload decrypts and decodes to it, its version is 1 or more, its
    installation id and access token pass [validateUUID], the lookup finds
    nothing or a strictly older version, its device token is non-empty
    and its token type is known. *)
Theorem well_formed_registration_accepted p P payload decrypted registration
    (previous : option PushNotificationRegistration) :
  decryptRegistration p (Some P) payload = Ok decrypted →
  proto_Unmarshal decrypted = Ok registration →
  1 ≤ Version registration →
  validateUUID (InstallationId registration) = None →
  GetPushNotificationRegistrationByPublicKeyAndInstallationID
    (persistence p) (common_HashPublicKey (Some P))
    (InstallationId registration) = Ok previous →
  (∀ stored, previous = Some stored →
             Version stored < Version registration) →
  validateUUID (AccessToken registration) = None →
  Token registration ≠ "" →
  TokenType registration ≠ PushNotificationRegistration_UNKNOWN_TOKEN_TYPE →
  ValidateRegistration p (Some P) (Some payload) = Ok registration.
Proof.
  intros Hdecrypt Hdecode Hversion Hid Hget Hnewer Htoken Hdevice Htype.
  rewrite (ValidateRegistration_decoded _ _ _ _ _ Hdecrypt Hdecode).
  apply N.ltb_ge in Hversion as ->. rewrite Hid, Hget, Htoken. cbn.
  assert ((if previous is Some stored
           then Version registration <=? Version stored else false) = false)
    as ->.
  { destruct previous as [stored|]; [|done].
    apply N.leb_gt. by apply Hnewer. }
  destruct (Unregister registration); [done|].
  destruct (decide (String.length (Token registration) = 0%nat)) as [Hlen|_].
  { destruct (Token registration); done. }
  by destruct (decide (TokenType registration = _)).
Qed.

(** X10.  For a registration that does not unregister and has passed the
    version, installation id and staleness tests, the token fields are
    tested in the order access token, device token, token type, and the
    first that fails names the error. *)
Theorem token_fields_checked_in_order p P payload decrypted registration
    (previous : option PushNotificationRegistration) :
  decryptRegistration p (Some P) payload = Ok decrypted →
  proto_Unmarshal decrypted = Ok registration →
  1 ≤ Version registration →
  validateUUID (InstallationId registration) = None →
  GetPushNotificationRegistrationByPublicKeyAndInstallationID
    (persistence p) (common_HashPublicKey (Some P))
    (InstallationId registration) = Ok previous →
  (∀ stored, previous = Some stored →
             Version stored < Version registration) →
  Unregister registration = false →
  (is_Some (validateUUID (AccessToken registration)) →
   ValidateRegistration p (Some P) (Some payload)
   = Err ErrMalformedPushNotificationRegistrationAccessToken)
  ∧ (validateUUID (AccessToken registration) = None →
     Token registration = "" →
     ValidateRegistration p (Some P) (Some payload)
     = Err ErrMalformedPushNotificationRegistrationDeviceToken)
  ∧ (validateUUID (AccessToken registration) = None →
     Token registration ≠ "" →
     TokenType registration
     = PushNotificationRegistration_UNKNOWN_TOKEN_TYPE →
     ValidateRegistration p (Some P) (Some payload)
     = Err ErrUnknownPushNotificationRegistrationTokenType).
Proof.
  intros Hdecrypt Hdecode Hversion Hid Hget Hnewer Hun.
  rewrite (ValidateRegistration_decoded _ _ _ _ _ Hdecrypt Hdecode).
  apply N.ltb_ge in Hversion as ->. rewrite Hid, Hget, Hun. cbn.
  assert ((if previous is Some stored
           then Version registration <=? Version stored else false) = false)
    as ->.
  { destruct previous as [stored|]; [|done].
    apply N.leb_gt. by apply Hnewer. }
  split_and!.
  - by intros [e ->].
  - intros -> ->. done.
  - intros -> Hdevice ->.
    destruct (decide (String.length (Token registration) = 0%nat)) as [Hlen|_].
    { destruct (Token registration); done. }
    done.
Qed.

(** X11.  When the lookup of the previous registration fails, validation
    fails with the error of the store, unchanged, and the handler answers
    MALFORMED_MESSAGE (unless that error is the invalid-version error
    itself) and leaves the store as it is. *)
Theorem lookup_failure_fails_validation s P payload decrypted registration
    (e : error) :
  decryptRegistration s (Some P) payload = Ok decrypted →
  proto_Unmarshal decrypted = Ok registration →
  1 ≤ Version registration →
  validateUUID (InstallationId registration) = None →
  GetPushNotificationRegistrationByPublicKeyAndInstallationID
    (persistence s) (common_HashPublicKey (Some P))
    (InstallationId registration) = Err e →
  ValidateRegistration s (Some P) (Some payload) = Err e
  ∧ (HandlePushNotificationRegistration s (Some P) (Some payload)).1.1 = s
  ∧ (e ≠ ErrInvalidPushNotificationRegistrationVersion →
     rr_Error (HandlePushNotificationRegistration s (Some P)
                 (Some payload)).2
     = PushNotificationRegistrationResponse_MALFORMED_MESSAGE).
Proof.
  intros Hdecrypt Hdecode Hversion Hid Hget.
  assert (Hvalidate : ValidateRegistration s (Some P) (Some payload) = Err e).
  { rewrite (ValidateRegistration_decoded _ _ _ _ _ Hdecrypt Hdecode).
    apply N.ltb_ge in Hversion as ->. by rewrite Hid, Hget. }
  split; [done|]. unfold HandlePushNotificationRegistration.
  rewrite Hvalidate. cbn. split; [done|]. intros Hne.
  by destruct (decide (e = _)).
Qed.

(** X12.  Every error of validation is one of the eight errors of the
    package, or the error with which decryption failed, or the error with
    which the lookup in the store failed. *)
Theorem validation_error_classification p publicKey (payload : option bytes)
    (e : error) :
  ValidateRegistration p publicKey payload = Err e →
  e ∈ [ErrEmptyPushNotificationRegistrationPayload;
       ErrEmptyPushNotificationRegistrationPublicKey;
       ErrCouldNotUnmarshalPushNotificationRegistration;
       ErrInvalidPushNotificationRegistrationVersion;
       ErrMalformedPushNotificationRegistrationInstallationID;
       ErrMalformedPushNotificationRegistrationAccessToken;
       ErrMalformedPushNotificationRegistrationDeviceToken;
       ErrUnknownPushNotificationRegistrationTokenType]
  ∨ (∃ payload', payload = Some payload'
                 ∧ decryptRegistration p publicKey payload' = Err e)
  ∨ (∃ installationId,
       GetPushNotificationRegistrationByPublicKeyAndInstallationID
         (persistence p) (common_HashPublicKey publicKey) installationId
       = Err e).
Proof.
  unfold ValidateRegistration.
  destruct payload as [payload'|]; [|intros [= <-]; left; set_solver].
  destruct publicKey as [P|]; [|intros [= <-]; left; set_solver].
  destruct (decryptRegistration p (Some P) payload') as [decrypted|e']
    eqn:Hdecrypt; cbn.
  2: { intros [= <-]. right. left. by exists payload'. }
  destruct (proto_Unmarshal decrypted) as [registration|e'];
    [|intros [= <-]; left; set_solver].
  destruct (Version registration <? 1); [intros [= <-]; left; set_solver|].
  destruct (validateUUID (InstallationId registration));
    [intros [= <-]; left; set_solver|].
  destruct (GetPushNotificationRegistrationByPublicKeyAndInstallationID _ _ _)
    as [previous|e'] eqn:Hget; cbn.
  2: { intros [= <-]. right. right. by eexists. }
  repeat case_match; intros [= <-]; left; set_solver.
Qed.

(** *** Registration handler *)

(** The installation id of an accepted registration passes
    [validateUUID]. *)
Lemma ValidateRegistration_Ok_installation p publicKey
    (payload : option bytes) R :
  ValidateRegistration p publicKey payload = Ok R →
  validateUUID (InstallationId R) = None.
Proof.
  unfold ValidateRegistration.
  destruct payload as [payload'|]; [|done].
  destruct publicKey as [P|]; [|done].
  destruct (decryptRegistration p (Some P) payload'); [|done]. cbn.
  destruct (proto_Unmarshal _) as [registration|]; [|done].
  destruct (Version registration <? 1); [done|].
  destruct (validateUUID (InstallationId registration)) eqn:Hid; [done|].
  destruct (GetPushNotificationRegistrationByPublicKeyAndInstallationID _ _ _);
    [|done]. cbn.
  repeat case_match; intros [= <-]; done.
Qed.

(** The handler on a valid registration that does not unregister: it
    saves the registration as it was validated. *)
Lemma HandlePushNotificationRegistration_register s publicKey
    (payload : option bytes) registration s' logs response :
  ValidateRegistration s publicKey payload = Ok registration →
  Unregister registration = false →
  HandlePushNotificationRegistration s publicKey payload
  = (s', logs, response) →
  rr_Success response = true →
  SavePushNotificationRegistration (persistence s)
    (common_HashPublicKey publicKey) registration = Ok (persistence s')
  ∧ config s' = config s.
Proof.
  intros Hvalidate Hun. unfold HandlePushNotificationRegistration.
  rewrite Hvalidate, Hun. cbn.
  destruct (SavePushNotificationRegistration _ _ _) as [store|e];
    intros [= <- <- <-]; cbn; done.
Qed.

(** X13.  Every response to a registration carries as request id the
    hash of the payload as received (of the empty payload when it is
    nil); its success flag is true exactly when its error code is the
    zero value; and the code UNSUPPORTED_TOKEN_TYPE is never used. *)
Theorem registration_response_invariant s publicKey (payload : option bytes) :
  let response :=
    (HandlePushNotificationRegistration s publicKey payload).2 in
  RequestId response = common_Shake256 (default [] payload)
  ∧ (rr_Success response = true
     ↔ rr_Error response
       = PushNotificationRegistrationResponse_UNKNOWN_ERROR_TYPE)
  ∧ rr_Error response
    ≠ PushNotificationRegistrationResponse_UNSUPPORTED_TOKEN_TYPE.
Proof.
  unfold HandlePushNotificationRegistration.
  destruct (ValidateRegistration s publicKey payload) as [registration|err];
    cbn.
  - destruct (Unregister registration);
      destruct (SavePushNotificationRegistration _ _ _); cbn; done.
  - destruct (decide (err = _)); cbn; done.
Qed.

(** X14.  The handler never changes the configuration of the server, and
    it changes the store only when it reports success. *)
Theorem store_changes_only_on_success s publicKey (payload : option bytes)
    s' logs response :
  HandlePushNotificationRegistration s publicKey payload
  = (s', logs, response) →
  config s' = config s ∧ (rr_Success response = false → s' = s).
Proof.
  unfold HandlePushNotificationRegistration.
  destruct (ValidateRegistration s publicKey payload) as [registration|err];
    cbn.
  - destruct (Unregister registration);
      destruct (SavePushNotificationRegistration _ _ _);
      intros [= <- <- <-]; cbn; done.
  - intros [= <- <- <-]. done.
Qed.

(** X15.  When validation succeeds and the store refuses to save, the
    handler answers {success false, INTERNAL_ERROR}, leaves the server as
    it is, and writes the error of the store to the log at error level.
    What it tried to save is the registration itself, or, for an
    unregistration, a registration with only its version and installation
    id. *)
Theorem save_failure_internal_error s publicKey (payload : option bytes)
    registration (e : error) :
  ValidateRegistration s publicKey payload = Ok registration →
  SavePushNotificationRegistration (persistence s)
    (common_HashPublicKey publicKey)
    (if Unregister registration
     then {| TokenType := PushNotificationRegistration_UNKNOWN_TOKEN_TYPE;
             Token := "";
             InstallationId := InstallationId registration;
             AccessToken := "";
             Version := Version registration;
             AllowedUserList := [];
             Unregister := false |}
     else registration) = Err e →
  ∃ logs response,
    HandlePushNotificationRegistration s publicKey payload
    = (s, logs, response)
    ∧ rr_Success response = false
    ∧ rr_Error response
      = PushNotificationRegistrationResponse_INTERNAL_ERROR
    ∧ last logs
      = Some {| level := ErrorLevel;
                msg := if Unregister registration
                       then "failed to unregister "
                       else "failed to save registration";
                zap_Error := Some e |}.
Proof.
  intros Hvalidate Hsave. unfold HandlePushNotificationRegistration.
  rewrite Hvalidate. cbn.
  destruct (Unregister registration); cbn in *; rewrite Hsave;
    do 2 eexists; split_and!; done.
Qed.

(** X16.  On every path the handler writes two log entries: first that
    it handles a registration, then the outcome.  The outcome is at debug
    level exactly when the response says success and at error level
    exactly when the response says INTERNAL_ERROR; after a failed
    validation it is a warning that carries the validation error itself,
    the cause the response does not tell. *)
Theorem registration_log_retains_cause s publicKey (payload : option bytes) :
  ∃ outcome,
    (HandlePushNotificationRegistration s publicKey payload).1.2
    = [ {| level := DebugLevel;
           msg := "handling push notification registration";
           zap_Error := None |};
        outcome ]
    ∧ (level outcome = DebugLevel
       ↔ rr_Success
           (HandlePushNotificationRegistration s publicKey payload).2 = true)
    ∧ (level outcome = ErrorLevel
       ↔ rr_Error (HandlePushNotificationRegistration s publicKey payload).2
         = PushNotificationRegistrationResponse_INTERNAL_ERROR)
    ∧ (∀ err, ValidateRegistration s publicKey payload = Err err →
              outcome = {| level := WarnLevel;
                           msg := "registration did not validate";
                           zap_Error := Some err |}).
Proof.
  unfold HandlePushNotificationRegistration.
  destruct (ValidateRegistration s publicKey payload) as [registration|err];
    cbn.
  - destruct (Unregister registration);
      destruct (SavePushNotificationRegistration _ _ _); cbn;
      eexists; (split; [reflexivity|]); cbn; done.
  - eexists. split; [reflexivity|]. cbn.
    destruct (decide (err = _)); cbn; split_and!; try done.
    all: by intros ? [= <-].
Qed.

(** X17.  Register, then a request the handler answers (non-empty
    message id).  After the handler accepts a
    registration that does not unregister, on a store with get/set
    semantics, the store holds that registration under the hash of the
    key and the installation id.  In a later request, an entry for that
    identity and installation is reported success and put in the batch
    when it claims the access token of the registration, and reported
    WRONG_TOKEN when it claims any other token. *)
Theorem registered_token_authorises_request `{!PersistenceGetSet S}
    s publicKey (payload : option bytes) registration s' logs response
    request (i : nat) pn :
  ValidateRegistration s publicKey payload = Ok registration →
  Unregister registration = false →
  HandlePushNotificationRegistration s publicKey payload
  = (s', logs, response) →
  rr_Success response = true →
  MessageId request ≠ [] →
  Requests request !! i = Some pn →
  pn_PublicKey pn = common_HashPublicKey publicKey →
  pn_InstallationId pn = InstallationId registration →
  GetPushNotificationRegistrationByPublicKeyAndInstallationID
    (persistence s') (common_HashPublicKey publicKey)
    (InstallationId registration) = Ok (Some registration)
  ∧ ∃ answer report,
      (HandlePushNotificationRequest s' (Some request)).1 = Some answer
      ∧ Reports answer !! i = Some report
      ∧ (pn_AccessToken pn = AccessToken registration →
         rp_Success report = true
         ∧ {| Request := pn; Registration' := registration |}
           ∈ requestBatch s' request)
      ∧ (pn_AccessToken pn ≠ AccessToken registration →
         rp_Success report = false
         ∧ rp_Error report = PushNotificationReport_WRONG_TOKEN).
Proof.
  intros Hvalidate Hun Hhandle Hok Hid Hi Hkey Hinst.
  destruct (HandlePushNotificationRegistration_register
              _ _ _ _ _ _ _ Hvalidate Hun Hhandle Hok) as [Hsave _].
  apply get_after_save in Hsave. split; [done|].
  rewrite (HandlePushNotificationRequest_answered _ _ Hid). cbn.
  do 2 eexists. split; [done|]. cbn. rewrite list_lookup_fmap, Hi. cbn.
  split; [done|]. split.
  - intros Htoken.
    assert (Hentry : (requestEntry s' pn).2
                     = Some {| Request := pn; Registration' := registration |}).
    { apply requestEntry_accepted. exists registration.
      by rewrite Hkey, Hinst. }
    split.
    + apply requestEntry_success. by rewrite Hentry.
    + rewrite requestBatch_eq, list_elem_of_omap. exists pn.
      split; [by eapply list_elem_of_lookup_2|done].
  - intros Htoken. unfold requestEntry. rewrite Hkey, Hinst, Hsave.
    destruct (decide (AccessToken registration ≠ pn_AccessToken pn))
      as [|Hsame]; [done|]. destruct Hsame. congruence.
Qed.

(** X18.  Unregister, then replay.  The record kept after an accepted
    unregistration still holds its version: on a store with get/set
    semantics, a later payload from the same key for the same
    installation with a version not above it fails validation with the
    invalid-version error, the handler answers VERSION_MISMATCH, and the
    store stays as it is. *)
Theorem unregistered_record_blocks_replay `{!PersistenceGetSet S}
    s P (payload : option bytes) registration s' logs response
    (later : bytes) decrypted R :
  ValidateRegistration s (Some P) payload = Ok registration →
  Unregister registration = true →
  HandlePushNotificationRegistration s (Some P) payload
  = (s', logs, response) →
  rr_Success response = true →
  decryptRegistration s' (Some P) later = Ok decrypted →
  proto_Unmarshal decrypted = Ok R →
  InstallationId R = InstallationId registration →
  Version R ≤ Version registration →
  ValidateRegistration s' (Some P) (Some later)
  = Err ErrInvalidPushNotificationRegistrationVersion
  ∧ (HandlePushNotificationRegistration s' (Some P) (Some later)).1.1 = s'
  ∧ rr_Error (HandlePushNotificationRegistration s' (Some P)
                (Some later)).2
    = PushNotificationRegistrationResponse_VERSION_MISMATCH.
Proof.
  intros Hvalidate Hun Hhandle Hok Hdecrypt Hdecode Hinst Hle.
  destruct (HandlePushNotificationRegistration_unregister
              _ _ _ _ _ _ _ Hvalidate Hun Hhandle Hok) as [Hsave _].
  apply get_after_save in Hsave. cbn in Hsave.
  apply ValidateRegistration_Ok_installation in Hvalidate as Huuid.
  assert (Hlater : ValidateRegistration s' (Some P) (Some later)
                   = Err ErrInvalidPushNotificationRegistrationVersion).
  { rewrite (ValidateRegistration_decoded _ _ _ _ _ Hdecrypt Hdecode).
    destruct (Version R <? 1); [done|].
    rewrite Hinst, Huuid, Hsave. cbn.
    by apply N.leb_le in Hle as ->. }
  split; [done|]. unfold HandlePushNotificationRegistration.
  rewrite Hlater. cbn. done.
Qed.

(** X19.  What an accepted unregistration leaves in a store with get/set
    semantics is a registration with the version and the installation id
    of the message and every other field at its zero value: the device
    token, the access token, the token type and the allow-list are not
    kept. *)
Theorem unregister_keeps_only_version_and_installation
    `{!PersistenceGetSet S} s publicKey (payload : option bytes)
    registration s' logs response :
  ValidateRegistration s publicKey payload = Ok registration →
  Unregister registration = true →
  HandlePushNotificationRegistration s publicKey payload
  = (s', logs, response) →
  rr_Success response = true →
  GetPushNotificationRegistrationByPublicKeyAndInstallationID
    (persistence s') (common_HashPublicKey publicKey)
    (InstallationId registration)
  = Ok (Some {| TokenType := PushNotificationRegistration_UNKNOWN_TOKEN_TYPE;
                Token := "";
                InstallationId := InstallationId registration;
                AccessToken := "";
                Version := Version registration;
                AllowedUserList := [];
                Unregister := false |}).
Proof.
  intros Hvalidate Hun Hhandle Hok.
  destruct (HandlePushNotificationRegistration_unregister
              _ _ _ _ _ _ _ Hvalidate Hun Hhandle Hok) as [Hsave _].
  by apply get_after_save in Hsave.
Qed.

End Handlers.

(** ** Properties of the sending wrappers *)

Section Sending.

Context {PrivateKey PublicKey UUID GoRushRequest : Type}.
Context `{!Collaborators PrivateKey PublicKey UUID GoRushRequest}.
Context {S : Type} `{!Persistence S}.
Context {M : Type} `{!Transport PublicKey M}.

Implicit Types (p s : Server PrivateKey S) (publicKey : option PublicKey).
Implicit Types (m : M) (request : PushNotificationRequest).
Implicit Types (query : PushNotificationQuery).

(** What [marshalAndSend] does in each of its two cases. *)
Lemma marshalAndSend_Err m publicKey (response : proto_Message)
    (messageType : ApplicationMetadataMessage_Type) (e : error) :
  proto_Marshal response = Err e →
  marshalAndSend m publicKey response messageType
  = {| messageProcessor := m; calls := []; returned := Some e |}.
Proof. intros Hmarshal. unfold marshalAndSend. by rewrite Hmarshal. Qed.

Lemma marshalAndSend_Ok m publicKey (response : proto_Message)
    (messageType : ApplicationMetadataMessage_Type) (encoded : bytes) :
  proto_Marshal response = Ok encoded →
  let raw := {| Payload := encoded; MessageType := messageType |} in
  marshalAndSend m publicKey response messageType
  = {| messageProcessor := (SendPrivate m publicKey raw).1;
       calls := [{| recipient := publicKey; rawMessage := raw |}];
       returned := err_of (SendPrivate m publicKey raw).2 |}.
Proof.
  intros Hmarshal raw. unfold marshalAndSend. rewrite Hmarshal.
  fold raw. by destruct (SendPrivate m publicKey raw).
Qed.

(** X20.  For a request without message id the wrapper sends nothing to
    the peer, calls no gateway, leaves the message processor as it is and
    returns no error. *)
Theorem request_without_message_id_sends_nothing p m publicKey request :
  MessageId request = [] →
  HandlePushNotificationRequest2 p m publicKey request
  = ([], {| messageProcessor := m; calls := []; returned := None |}).
Proof.
  intros Hnil.
  unfold HandlePushNotificationRequest2, HandlePushNotificationRequest.
  by rewrite Hnil.
Qed.

(** X21.  When the response cannot be serialised, a wrapper returns the
    error of the serialiser and never calls [SendPrivate].  For a
    registration the work of the inner handler stands: the server the
    wrapper returns is the one the handler returns. *)
Theorem marshal_failure_sends_nothing p m publicKey (e : error) :
  (∀ (payload : option bytes),
     proto_Marshal
       (RegistrationResponseMessage
          (HandlePushNotificationRegistration p publicKey payload).2)
     = Err e →
     (HandlePushNotificationRegistration2 p m publicKey payload).2
     = {| messageProcessor := m; calls := []; returned := Some e |}
     ∧ (HandlePushNotificationRegistration2 p m publicKey payload).1
       = (HandlePushNotificationRegistration p publicKey payload).1)
  ∧ (∀ query,
       proto_Marshal
         (QueryResponseMessage (HandlePushNotificationQuery p (Some query)))
       = Err e →
       HandlePushNotificationQuery2 p m publicKey query
       = {| messageProcessor := m; calls := []; returned := Some e |})
  ∧ (∀ request response,
       (HandlePushNotificationRequest p (Some request)).1 = Some response →
       proto_Marshal (NotificationResponseMessage response) = Err e →
       (HandlePushNotificationRequest2 p m publicKey request).2
       = {| messageProcessor := m; calls := []; returned := Some e |}).
Proof.
  split_and!.
  - intros payload. unfold HandlePushNotificationRegistration2.
    destruct (HandlePushNotificationRegistration p publicKey payload)
      as [[p' logs] response]. cbn. intros Hmarshal.
    by rewrite (marshalAndSend_Err _ _ _ _ _ Hmarshal).
  - intros query Hmarshal. unfold HandlePushNotificationQuery2.
    by rewrite (marshalAndSend_Err _ _ _ _ _ Hmarshal).
  - intros request response. unfold HandlePushNotificationRequest2.
    destruct (HandlePushNotificationRequest p (Some request))
      as [answer gateway]. cbn. intros -> Hmarshal. cbn.
    by rewrite (marshalAndSend_Err _ _ _ _ _ Hmarshal).
Qed.

(** X22.  A registration is always answered: whatever validation says,
    and also for a nil key or payload, when the response serialises the
    wrapper calls [SendPrivate] once, addressed to the key it was given,
    with the serialised response tagged as a registration response, and
    returns the error of that call unchanged. *)
Theorem registration_always_answered p m publicKey (payload : option bytes)
    (encoded : bytes) :
  proto_Marshal
    (RegistrationResponseMessage
       (HandlePushNotificationRegistration p publicKey payload).2)
  = Ok encoded →
  let raw :=
    {| Payload := encoded;
       MessageType :=
         ApplicationMetadataMessage_PUSH_NOTIFICATION_REGISTRATION_RESPONSE |}
  in
  let sent := (HandlePushNotificationRegistration2 p m publicKey payload).2 in
  calls sent = [{| recipient := publicKey; rawMessage := raw |}]
  ∧ returned sent = err_of (SendPrivate m publicKey raw).2
  ∧ messageProcessor sent = (SendPrivate m publicKey raw).1.
Proof.
  unfold HandlePushNotificationRegistration2.
  destruct (HandlePushNotificationRegistration p publicKey payload)
    as [[p' logs] response]. cbn. intros Hmarshal.
  by rewrite (marshalAndSend_Ok _ _ _ _ _ Hmarshal).
Qed.

(** X23.  A query is always answered, also when it names no identity or
    the lookup failed; a request is answered when it has a message id.
    In both cases, when the response serialises, [SendPrivate] is called
    once, addressed to the key given, with the serialised response of the
    inner handler under the message type of that handler, and its error
    is returned unchanged; the gateway calls of a request are those of
    the inner handler. *)
Theorem query_and_request_answered p m publicKey (encoded : bytes) :
  (∀ query,
     proto_Marshal
       (QueryResponseMessage (HandlePushNotificationQuery p (Some query)))
     = Ok encoded →
     let raw :=
       {| Payload := encoded;
          MessageType :=
            ApplicationMetadataMessage_PUSH_NOTIFICATION_QUERY_RESPONSE |} in
     HandlePushNotificationQuery2 p m publicKey query
     = {| messageProcessor := (SendPrivate m publicKey raw).1;
          calls := [{| recipient := publicKey; rawMessage := raw |}];
          returned := err_of (SendPrivate m publicKey raw).2 |})
  ∧ (∀ request response,
       (HandlePushNotificationRequest p (Some request)).1 = Some response →
       proto_Marshal (NotificationResponseMessage response) = Ok encoded →
       let raw :=
         {| Payload := encoded;
            MessageType :=
              ApplicationMetadataMessage_PUSH_NOTIFICATION_RESPONSE |} in
       HandlePushNotificationRequest2 p m publicKey request
       = ((HandlePushNotificationRequest p (Some request)).2,
          {| messageProcessor := (SendPrivate m publicKey raw).1;
             calls := [{| recipient := publicKey; rawMessage := raw |}];
             returned := err_of (SendPrivate m publicKey raw).2 |})).
Proof.
  split.
  - intros query Hmarshal raw. unfold HandlePushNotificationQuery2.
    by rewrite (marshalAndSend_Ok _ _ _ _ _ Hmarshal).
  - intros request response. unfold HandlePushNotificationRequest2.
    destruct (HandlePushNotificationRequest p (Some request))
      as [answer gateway]. cbn. intros -> Hmarshal. cbn.
    by rewrite (marshalAndSend_Ok _ _ _ _ _ Hmarshal).
Qed.

End Sending.

(** ** The further properties on the concrete deployment *)

Section MoreRuns.

Import Fixture.

Import Sample.

(** Two entries, two reports. *)
Lemma request_reports_follow_entries_run :
  ∃ response,
    (HandlePushNotificationRequest (server (holding register1))
       (Some (ring ["guess"; token1]))).1 = Some response
    ∧ length (Reports response) = 2%nat.
Proof.
  destruct (request_reports_follow_entries (server (holding register1))
              (ring ["guess"; token1]))
    as (response & Hresponse & Hlength & _); [discriminate|].
  exists response. split; [exact Hresponse | exact Hlength].
Defined.

(** Nothing is stored for Alice; and a store whose lookups fail. *)
Lemma unknown_installation_run :
  (∃ response,
     (HandlePushNotificationRequest (server ∅) (Some (ring [token1]))).1
     = Some response
     ∧ Reports response !! 0%nat
       = Some {| rp_Success := false;
                 rp_Error := PushNotificationReport_NOT_REGISTERED;
                 rp_PublicKey := alice;
                 rp_InstallationId := installation1 |})
  ∧ (∃ response,
       (HandlePushNotificationRequest broken (Some (ring [token1]))).1
       = Some response
       ∧ Reports response !! 0%nat
         = Some {| rp_Success := false;
                   rp_Error := PushNotificationReport_UNKNOWN_ERROR_TYPE;
                   rp_PublicKey := alice;
                   rp_InstallationId := installation1 |}).
Proof.
  split.
  - destruct (unknown_installation_reported_and_not_dispatched (server ∅)
                (ring [token1]) 0%nat (knock token1))
      with (code := PushNotificationReport_NOT_REGISTERED)
      as (response & Hresponse & Hreport & _);
      [discriminate | reflexivity | left; split; reflexivity | ].
    exists response. split; [exact Hresponse | exact Hreport].
  - destruct (unknown_installation_reported_and_not_dispatched broken
                (ring [token1]) 0%nat (knock token1))
      with (code := PushNotificationReport_UNKNOWN_ERROR_TYPE)
      as (response & Hresponse & Hreport & _);
      [discriminate | reflexivity
      | right; split; [eexists|]; reflexivity | ].
    exists response. split; [exact Hresponse | exact Hreport].
Defined.

(** The second report says success, so the token is the stored one. *)
Lemma request_success_run :
  ∃ registration,
    GetPushNotificationRegistrationByPublicKeyAndInstallationID
      (holding register1) alice installation1 = Ok (Some registration)
    ∧ AccessToken registration = token1.
Proof.
  destruct (request_success_iff_token_matches (server (holding register1))
              (ring ["guess"; token1]) 1%nat (knock token1)
              {| rs_MessageId := [x09];
                 Reports :=
                   [ {| rp_Success := false;
                        rp_Error := PushNotificationReport_WRONG_TOKEN;
                        rp_PublicKey := alice;
                        rp_InstallationId := installation1 |};
                     {| rp_Success := true;
                        rp_Error := PushNotificationReport_UNKNOWN_ERROR_TYPE;
                        rp_PublicKey := alice;
                        rp_InstallationId := installation1 |} ] |}
              {| rp_Success := true;
                 rp_Error := PushNotificationReport_UNKNOWN_ERROR_TYPE;
                 rp_PublicKey := alice;
                 rp_InstallationId := installation1 |})
    as [[Hmatch _] _];
    [vm_compute; reflexivity | reflexivity | reflexivity | ].
  apply Hmatch. reflexivity.
Defined.

(** One entry of two is accepted: the batch has one element. *)
Lemma gateway_called_run :
  length (requestBatch (server (holding register1))
            (ring ["guess"; token1])) = 1%nat.
Proof.
  destruct (gateway_called_iff_some_success (server (holding register1))
              (ring ["guess"; token1]))
    as (response & Hresponse & Hcount & _); [discriminate|].
  rewrite Hcount. vm_compute in Hresponse. injection Hresponse as <-.
  reflexivity.
Defined.

(** The entry for a registration with an allow-list has no token. *)
Lemma query_entry_never_has_both_run :
  let info := {| qi_AccessToken := "";
                 qi_InstallationId := installation1;
                 qi_PublicKey := alice;
                 qi_AllowedUserList := [[x0a; x0b]; [x0c]] |} in
  qi_AccessToken info = "" ∨ qi_AllowedUserList info = [].
Proof.
  intros info.
  apply (query_entry_never_has_both (server (holding allowListed))
           (Some {| PublicKeys := [alice] |}) info).
  apply (list_elem_of_lookup_2 _ 0%nat). vm_compute. reflexivity.
Defined.

(** A failed lookup: no entry. *)
Lemma query_failure_run :
  Info (HandlePushNotificationQuery broken (Some {| PublicKeys := [alice] |}))
  = [].
Proof.
  destruct (query_failure_has_no_entries broken
              (Some {| PublicKeys := [alice] |})) as [Hempty _].
  apply Hempty. reflexivity.
Defined.

(** Version 1 is accepted on an empty store: it is well formed. *)
Lemma validation_accepts_run :
  1 ≤ Version register1 ∧ validateUUID (InstallationId register1) = None.
Proof.
  destruct (validation_accepts_only_well_formed (server ∅) (Some alice)
              (Some [x01]) register1)
    as (P & payload' & decrypted & _ & _ & _ & _ & Hversion & Huuid & _);
    [vm_compute; reflexivity|].
  split; [exact Hversion | exact Huuid].
Defined.

(** Version 2 after version 1. *)
Lemma well_formed_registration_accepted_run :
  ValidateRegistration (server (holding register1)) (Some alice) (Some [x02])
  = Ok register2.
Proof.
  apply (well_formed_registration_accepted (server (holding register1))
           alice [x02] [x02] register2 (Some register1));
    [reflexivity | reflexivity | vm_compute; discriminate | reflexivity
    | reflexivity | | reflexivity | discriminate | discriminate].
  intros stored [= <-]. reflexivity.
Defined.

(** Bob's three defective registrations, one error each. *)
Lemma token_fields_checked_in_order_run :
  ValidateRegistration (server ∅) (Some "bob") (Some [x11])
  = Err ErrMalformedPushNotificationRegistrationAccessToken
  ∧ ValidateRegistration (server ∅) (Some "bob") (Some [x12])
    = Err ErrMalformedPushNotificationRegistrationDeviceToken
  ∧ ValidateRegistration (server ∅) (Some "bob") (Some [x13])
    = Err ErrUnknownPushNotificationRegistrationTokenType.
Proof.
  split_and!.
  - apply (token_fields_checked_in_order (server ∅) "bob" [x11] [x11]
             badToken None);
      [reflexivity | reflexivity | vm_compute; discriminate | reflexivity
      | reflexivity | discriminate | reflexivity | ].
    vm_compute. eexists. reflexivity.
  - apply (token_fields_checked_in_order (server ∅) "bob" [x12] [x12]
             noDevice None);
      [reflexivity | reflexivity | vm_compute; discriminate | reflexivity
      | reflexivity | discriminate | reflexivity | reflexivity | reflexivity].
  - apply (token_fields_checked_in_order (server ∅) "bob" [x13] [x13]
             noType None);
      [reflexivity | reflexivity | vm_compute; discriminate | reflexivity
      | reflexivity | discriminate | reflexivity | reflexivity | discriminate
      | reflexivity].
Defined.

(** A valid registration on a store whose lookups fail. *)
Lemma lookup_failure_run :
  ValidateRegistration broken (Some alice) (Some [x01])
  = Err (errors_New "sql: database is closed")
  ∧ rr_Error (HandlePushNotificationRegistration broken (Some alice)
                (Some [x01])).2
    = PushNotificationRegistrationResponse_MALFORMED_MESSAGE.
Proof.
  destruct (lookup_failure_fails_validation broken alice [x01] [x01]
              register1 (errors_New "sql: database is closed"))
    as (Hvalidate & _ & Hcode);
    [reflexivity | reflexivity | vm_compute; discriminate | reflexivity
    | reflexivity | ].
  split; [exact Hvalidate | apply Hcode; discriminate].
Defined.

(** An empty payload is rejected by the cipher: the error is the one of
    decryption. *)
Lemma validation_error_classification_run :
  errors_New "payload is too short"
  ∈ [ErrEmptyPushNotificationRegistrationPayload;
     ErrEmptyPushNotificationRegistrationPublicKey;
     ErrCouldNotUnmarshalPushNotificationRegistration;
     ErrInvalidPushNotificationRegistrationVersion;
     ErrMalformedPushNotificationRegistrationInstallationID;
     ErrMalformedPushNotificationRegistrationAccessToken;
     ErrMalformedPushNotificationRegistrationDeviceToken;
     ErrUnknownPushNotificationRegistrationTokenType]
  ∨ (∃ payload', Some [] = Some payload'
                 ∧ decryptRegistration (server ∅) (Some alice) payload'
                   = Err (errors_New "payload is too short"))
  ∨ (∃ installationId,
       GetPushNotificationRegistrationByPublicKeyAndInstallationID
         (∅ : MemoryStore) (common_HashPublicKey (Some alice)) installationId
       = Err (errors_New "payload is too short")).
Proof.
  apply (validation_error_classification (server ∅) (Some alice) (Some [])
           (errors_New "payload is too short")).
  reflexivity.
Defined.

(** A replayed registration: the store is as before. *)
Lemma store_changes_only_on_success_run :
  (HandlePushNotificationRegistration (server (holding register2))
     (Some alice) (Some [x01])).1.1
  = server (holding register2).
Proof.
  destruct (store_changes_only_on_success (server (holding register2))
              (Some alice) (Some [x01])
              (HandlePushNotificationRegistration (server (holding register2))
                 (Some alice) (Some [x01])).1.1
              (HandlePushNotificationRegistration (server (holding register2))
                 (Some alice) (Some [x01])).1.2
              (HandlePushNotificationRegistration (server (holding register2))
                 (Some alice) (Some [x01])).2)
    as [_ Hsame]; [reflexivity|].
  apply Hsame. reflexivity.
Defined.

(** A valid registration on a store that refuses writes. *)
Lemma save_failure_run :
  ∃ logs response,
    HandlePushNotificationRegistration (readOnlyServer ∅) (Some alice)
      (Some [x01])
    = (readOnlyServer ∅, logs, response)
    ∧ rr_Error response
      = PushNotificationRegistrationResponse_INTERNAL_ERROR.
Proof.
  destruct (save_failure_internal_error (readOnlyServer ∅) (Some alice)
              (Some [x01]) register1
              (errors_New "attempt to write a readonly database"))
    as (logs & response & Hhandle & _ & Hcode & _);
    [vm_compute; reflexivity | reflexivity | ].
  exists logs, response. split; [exact Hhandle | exact Hcode].
Defined.

(** The log of a registration with a malformed installation id names the
    cause. *)
Lemma registration_log_run :
  last (HandlePushNotificationRegistration (server ∅) (Some alice)
          (Some [x05])).1.2
  = Some {| level := WarnLevel;
            msg := "registration did not validate";
            zap_Error :=
              Some ErrMalformedPushNotificationRegistrationInstallationID |}.
Proof.
  destruct (registration_log_retains_cause (server ∅) (Some alice)
              (Some [x05])) as (outcome & Hlogs & _ & _ & Hcause).
  rewrite Hlogs. cbn.
  rewrite (Hcause ErrMalformedPushNotificationRegistrationInstallationID);
    reflexivity.
Defined.

(** Alice registers; her token opens, a guess does not. *)
Lemma registered_token_run :
  let after :=
    (HandlePushNotificationRegistration (server ∅) (Some alice)
       (Some [x01])).1.1 in
  ∃ answer report,
    (HandlePushNotificationRequest after (Some (ring ["guess"; token1]))).1
    = Some answer
    ∧ Reports answer !! 1%nat = Some report
    ∧ rp_Success report = true.
Proof.
  intros after.
  destruct (registered_token_authorises_request
              (server ∅) (Some alice) (Some [x01]) register1 after
              (HandlePushNotificationRegistration (server ∅) (Some alice)
                 (Some [x01])).1.2
              (HandlePushNotificationRegistration (server ∅) (Some alice)
                 (Some [x01])).2
              (ring ["guess"; token1]) 1%nat (knock token1))
    as (_ & answer & report & Hanswer & Hreport & Hopen & _);
    [vm_compute; reflexivity | reflexivity | reflexivity | reflexivity
    | discriminate | reflexivity | reflexivity | reflexivity | ].
  exists answer, report. split; [exact Hanswer|]. split; [exact Hreport|].
  apply Hopen. reflexivity.
Defined.

(** Alice unregisters with version 3, then version 2 is replayed. *)
Lemma unregistered_record_blocks_replay_run :
  let after :=
    (HandlePushNotificationRegistration (server (holding register2))
       (Some alice) (Some [x03])).1.1 in
  rr_Error (HandlePushNotificationRegistration after (Some alice)
              (Some [x02])).2
  = PushNotificationRegistrationResponse_VERSION_MISMATCH.
Proof.
  intros after.
  destruct (unregistered_record_blocks_replay
              (server (holding register2)) alice (Some [x03]) unregister3
              after
              (HandlePushNotificationRegistration
                 (server (holding register2)) (Some alice) (Some [x03])).1.2
              (HandlePushNotificationRegistration
                 (server (holding register2)) (Some alice) (Some [x03])).2
              [x02] [x02] register2)
    as (_ & _ & Hcode);
    [vm_compute; reflexivity | reflexivity | reflexivity | reflexivity
    | reflexivity | reflexivity | reflexivity | vm_compute; discriminate | ].
  exact Hcode.
Defined.

(** What is stored after Alice unregisters. *)
Lemma unregister_keeps_run :
  let after :=
    (HandlePushNotificationRegistration (server (holding register2))
       (Some alice) (Some [x03])).1.1 in
  GetPushNotificationRegistrationByPublicKeyAndInstallationID
    (persistence after) alice installation1
  = Ok (Some {| TokenType := PushNotificationRegistration_UNKNOWN_TOKEN_TYPE;
                Token := "";
                InstallationId := installation1;
                AccessToken := "";
                Version := 3;
                AllowedUserList := [];
                Unregister := false |}).
Proof.
  intros after.
  exact (unregister_keeps_only_version_and_installation
           (server (holding register2)) (Some alice) (Some [x03]) unregister3
           after
           (HandlePushNotificationRegistration
              (server (holding register2)) (Some alice) (Some [x03])).1.2
           (HandlePushNotificationRegistration
              (server (holding register2)) (Some alice) (Some [x03])).2
           eq_refl eq_refl eq_refl eq_refl).
Defined.

(** A request without message id, on a processor that delivers. *)
Lemma request_sends_nothing_run :
  HandlePushNotificationRequest2 (server (holding register1))
    ([] : Wire.Outbox) (Some alice)
    {| Requests := [knock token1]; MessageId := [] |}
  = ([], {| messageProcessor := []; calls := []; returned := None |}).
Proof.
  apply (request_without_message_id_sends_nothing
           (server (holding register1)) ([] : Wire.Outbox) (Some alice)
           {| Requests := [knock token1]; MessageId := [] |}).
  reflexivity.
Defined.

(** A registration whose response cannot be serialised is stored all the
    same, and nothing is sent. *)
Lemma marshal_failure_run :
  (HandlePushNotificationRegistration2 (server ∅) Wire.unencodable
     (Some alice) (Some [x01])).2
  = {| messageProcessor := Wire.unencodable;
       calls := [];
       returned := Some (errors_New "proto: invalid UTF-8 string") |}
  ∧ GetPushNotificationRegistrationByPublicKeyAndInstallationID
      (persistence
         (HandlePushNotificationRegistration2 (server ∅) Wire.unencodable
            (Some alice) (Some [x01])).1.1)
      alice installation1
    = Ok (Some register1).
Proof.
  destruct (marshal_failure_sends_nothing (server ∅) Wire.unencodable
              (Some alice) (errors_New "proto: invalid UTF-8 string"))
    as (Hregistration & _ & _).
  destruct (Hregistration (Some [x01])) as [Hsent Hserver]; [reflexivity|].
  split; [exact Hsent|]. rewrite Hserver. reflexivity.
Defined.

(** A registration from a nil key is answered too, to the nil key, and
    the error of the network comes back. *)
Lemma registration_always_answered_run :
  let sent :=
    (HandlePushNotificationRegistration2 (server ∅) Wire.offline
       None (Some [x01])).2 in
  calls sent
  = [{| recipient := None;
        rawMessage :=
          {| Payload := [x00; x01];
             MessageType :=
               ApplicationMetadataMessage_PUSH_NOTIFICATION_REGISTRATION_RESPONSE
          |} |}]
  ∧ returned sent = Some (errors_New "no peers available").
Proof.
  intros sent.
  destruct (registration_always_answered (server ∅) Wire.offline
              (None : option bytes) (Some [x01]) [x00; x01])
    as (Hcalls & Hreturned & _); [reflexivity|].
  split; [exact Hcalls | exact Hreturned].
Defined.

(** A query with no identity is answered with the empty response. *)
Lemma query_answered_run :
  HandlePushNotificationQuery2 (server ∅) ([] : Wire.Outbox) (Some alice)
    {| PublicKeys := [] |}
  = {| messageProcessor :=
         [(Some alice,
           {| Payload := [x00];
              MessageType :=
                ApplicationMetadataMessage_PUSH_NOTIFICATION_QUERY_RESPONSE
           |})];
       calls :=
         [{| recipient := Some alice;
             rawMessage :=
               {| Payload := [x00];
                  MessageType :=
                    ApplicationMetadataMessage_PUSH_NOTIFICATION_QUERY_RESPONSE
               |} |}];
       returned := None |}.
Proof.
  destruct (query_and_request_answered (server ∅) ([] : Wire.Outbox)
              (Some alice) [x00]) as [Hquery _].
  apply (Hquery {| PublicKeys := [] |}). reflexivity.
Defined.

(** Version 2 replaces the stored version 1. *)
Lemma stored_registration_replaced_run :
  let after :=
    (HandlePushNotificationRegistration (server (holding register1))
       (Some alice) (Some [x02])).1.1 in
  ∃ stored,
    GetPushNotificationRegistrationByPublicKeyAndInstallationID
      (persistence after) alice installation1 = Ok (Some stored)
    ∧ Version register1 < Version stored.
Proof.
  intros after.
  exact (stored_registration_replaced_by_newer
           (server (holding register1)) alice [x02] [x02] register2 register1
           after
           (HandlePushNotificationRegistration
              (server (holding register1)) (Some alice) (Some [x02])).1.2
           (HandlePushNotificationRegistration
              (server (holding register1)) (Some alice) (Some [x02])).2
           eq_refl eq_refl eq_refl eq_refl eq_refl).
Defined.

End MoreRuns.
